(** * The vSphere inspector of monasca-agent

    A shallow embedding of
    [monasca_agent/collector/virt/vmware/inspector.py] and the properties
    of its four inspection operations.

    The module is Python 2 code (it iterates dictionaries with
    [iterkeys]): numbers are integers of unbounded size or binary64
    floats, and [/] between two integers is floor division.  The calls
    the inspector makes on its collaborator [self._ops] and the values
    its generators yield are the nodes of a finite interaction tree,
    which is run against a collaborator that owns a state of its own. *)

From Stdlib Require Import ZArith String.
From Stdlib Require Import Floats.PrimFloat Floats.SpecFloat Floats.FloatOps.
From stdpp Require Import gmap strings list.

Local Open Scope Z_scope.
Local Open Scope string_scope.

(** ** Python values *)

(** A Python 2 number: [int]/[long] (unbounded) or [float] (binary64). *)
Inductive pynum : Type :=
| PyInt (z : Z)
| PyFloat (f : float).

(** The values that travel through the inspector without being computed
    on: [None], strings and numbers. *)
Inductive pyval : Type :=
| PyNone
| PyStr (s : string)
| PyNum (n : pynum).

(** [x is None]. *)
Definition is_None (v : pyval) : bool :=
  match v with
  | PyNone => true
  | _ => false
  end.

(** Truth value of an object, as [not x] and [if x] test it: [None], the
    empty string and a zero are false (a NaN is not a zero). *)
Definition truthy (v : pyval) : bool :=
  match v with
  | PyNone => false
  | PyStr s => negb (String.eqb s "")
  | PyNum (PyInt z) => negb (z =? 0)%Z
  | PyNum (PyFloat f) => negb (PrimFloat.eqb f 0%float)
  end.

(** ** Exceptions and outcomes *)

Inductive exn : Type :=
| InstanceNotFoundException (msg : string)
| KeyError (key : string)
| ZeroDivisionError
| OverflowError
| CollaboratorError (what : string).

Inductive outcome (A : Type) : Type :=
| Returned (a : A)
| Raised (e : exn).
Arguments Returned {A} a.
Arguments Raised {A} e.

(** ** Python 2 arithmetic *)

(** [float(z)]: the nearest binary64, ties to even; an integer beyond the
    range of a float raises [OverflowError]. *)
Definition float_of_int (z : Z) : outcome float :=
  match binary_normalize 53 1024 z 0 false with
  | S754_infinity _ => Raised OverflowError
  | sf => Returned (SF2Prim sf)
  end.

Definition float_div (a b : float) : outcome pynum :=
  if PrimFloat.eqb b 0%float then Raised ZeroDivisionError
  else Returned (PyFloat (PrimFloat.div a b)).

(** [a / b] without [from __future__ import division]: floor division on
    two integers, float division as soon as one operand is a float. *)
Definition py_div (a b : pynum) : outcome pynum :=
  match a, b with
  | PyInt x, PyInt y =>
      if (y =? 0)%Z then Raised ZeroDivisionError else Returned (PyInt (x / y))
  | PyFloat x, PyFloat y => float_div x y
  | PyFloat x, PyInt y =>
      match float_of_int y with
      | Returned fy => float_div x fy
      | Raised e => Raised e
      end
  | PyInt x, PyFloat y =>
      match float_of_int x with
      | Returned fx => float_div fx y
      | Raised e => Raised e
      end
  end.

(** [a * b]. *)
Definition py_mul (a b : pynum) : outcome pynum :=
  match a, b with
  | PyInt x, PyInt y => Returned (PyInt (x * y))
  | PyFloat x, PyFloat y => Returned (PyFloat (PrimFloat.mul x y))
  | PyFloat x, PyInt y =>
      match float_of_int y with
      | Returned fy => Returned (PyFloat (PrimFloat.mul x fy))
      | Raised e => Raised e
      end
  | PyInt x, PyFloat y =>
      match float_of_int x with
      | Returned fx => Returned (PyFloat (PrimFloat.mul fx y))
      | Raised e => Raised e
      end
  end.

(** Modelled from the spec: [oslo_utils.units], of which the inspector
    uses the constant [Ki], the number of bytes in a kilobyte. *)
Module units.
Definition Ki : pynum := PyInt 1024.
End units.

(** ** Records of [monasca_agent.collector.virt.inspector] *)

(** The instance the caller passes; the inspector reads its [id], here
    [instance_id], and nothing else. *)
Record instance : Type := { instance_id : string }.

(** Modelled from the spec: the named tuple [CPUUtilStats], declared in
    [virt.inspector]. *)
Record CPUUtilStats : Type := { util : pynum }.

(** Modelled from the spec: the named tuple [MemoryUsageStats], declared
    in [virt.inspector]. *)
Record MemoryUsageStats : Type := { usage : pynum }.

(** Modelled from the spec: the named tuple [Interface], declared in
    [virt.inspector], with the four fields the inspector fills by
    keyword. *)
Record Interface : Type :=
  { name : string; mac : pyval; fref : pyval; parameters : pyval }.

(** Modelled from the spec: the named tuple [InterfaceRateStats],
    declared in [virt.inspector]; the inspector fills it by position. *)
Record InterfaceRateStats : Type :=
  { rx_bytes_rate : pynum; tx_bytes_rate : pynum }.

(** Modelled from the spec: the named tuple [Disk], declared in
    [virt.inspector]. *)
Record Disk : Type := { device : string }.

(** Modelled from the spec: the named tuple [DiskRateStats], declared in
    [virt.inspector]. *)
Record DiskRateStats : Type :=
  { read_bytes_rate : pynum;
    read_requests_rate : pynum;
    write_bytes_rate : pynum;
    write_requests_rate : pynum }.

(** ** Counter names *)

Definition VC_AVERAGE_MEMORY_CONSUMED_CNTR : string := "mem:consumed:average".
Definition VC_AVERAGE_CPU_CONSUMED_CNTR : string := "cpu:usage:average".
Definition VC_NETWORK_RX_COUNTER : string := "net:received:average".
Definition VC_NETWORK_TX_COUNTER : string := "net:transmitted:average".
Definition VC_DISK_READ_RATE_CNTR : string := "disk:read:average".
Definition VC_DISK_READ_REQUESTS_RATE_CNTR : string :=
  "disk:numberReadAveraged:average".
Definition VC_DISK_WRITE_RATE_CNTR : string := "disk:write:average".
Definition VC_DISK_WRITE_REQUESTS_RATE_CNTR : string :=
  "disk:numberWriteAveraged:average".

(** ** Programs over the collaborator *)

(** What a method of the inspector does: it returns, raises, calls one of
    the four methods of [self._ops] and goes on with the answer, or (in a
    generator) yields a value and goes on when it is resumed. *)
Inductive prog (Y A : Type) : Type :=
| Ret (a : A)
| Raise (e : exn)
| GetVmMoid (vm_id : string) (k : pyval -> prog Y A)
| GetPerfCounterId (counter_name : string) (k : Z -> prog Y A)
| QueryVmAggregateStats (vm_moid : pyval) (counter_id : Z) (duration : pyval)
    (k : pynum -> prog Y A)
| QueryVmDeviceStats (vm_moid : pyval) (counter_id : Z) (duration : pyval)
    (k : gmap string pynum -> prog Y A)
| Yield (y : Y) (k : prog Y A).
Arguments Ret {Y A} a.
Arguments Raise {Y A} e.
Arguments GetVmMoid {Y A} vm_id k.
Arguments GetPerfCounterId {Y A} counter_name k.
Arguments QueryVmAggregateStats {Y A} vm_moid counter_id duration k.
Arguments QueryVmDeviceStats {Y A} vm_moid counter_id duration k.
Arguments Yield {Y A} y k.

Fixpoint prog_bind {Y A B : Type} (f : A -> prog Y B) (p : prog Y A)
  : prog Y B :=
  match p with
  | Ret a => f a
  | Raise e => Raise e
  | GetVmMoid i k => GetVmMoid i (fun v => prog_bind f (k v))
  | GetPerfCounterId c k => GetPerfCounterId c (fun v => prog_bind f (k v))
  | QueryVmAggregateStats m c d k =>
      QueryVmAggregateStats m c d (fun v => prog_bind f (k v))
  | QueryVmDeviceStats m c d k =>
      QueryVmDeviceStats m c d (fun v => prog_bind f (k v))
  | Yield y k => Yield y (prog_bind f k)
  end.

#[global] Instance prog_mret {Y} : MRet (prog Y) := fun _ a => Ret a.
#[global] Instance prog_mbind {Y} : MBind (prog Y) := fun _ _ f p => prog_bind f p.

(** An arithmetic result inside a program: the value, or the exception
    raised there. *)
Definition lift {Y A : Type} (o : outcome A) : prog Y A :=
  match o with
  | Returned a => Ret a
  | Raised e => Raise e
  end.

(** [d[key]] on a dictionary. *)
Definition getitem {Y V : Type} (d : gmap string V) (key : string)
  : prog Y V :=
  match d !! key with
  | Some v => Ret v
  | None => Raise (KeyError key)
  end.

(** [for x in xs: body(x)]. *)
Fixpoint for_each {Y X : Type} (xs : list X) (body : X -> prog Y unit)
  : prog Y unit :=
  match xs with
  | [] => Ret tt
  | x :: xs' => body x ≫= fun _ => for_each xs' body
  end.

(** A [for] loop whose body updates the local variables [acc]. *)
Fixpoint for_fold {Y X St : Type} (xs : list X) (acc : St)
    (body : St -> X -> prog Y St) : prog Y St :=
  match xs with
  | [] => Ret acc
  | x :: xs' => body acc x ≫= fun acc' => for_fold xs' acc' body
  end.

(** The methods of [self._ops] as the inspector calls them. *)
Module _ops.
Definition get_vm_moid {Y} (vm_id : string) : prog Y pyval :=
  GetVmMoid vm_id Ret.
Definition get_perf_counter_id {Y} (counter_name : string) : prog Y Z :=
  GetPerfCounterId counter_name Ret.
Definition query_vm_aggregate_stats {Y} (vm_moid : pyval) (counter_id : Z)
    (duration : pyval) : prog Y pynum :=
  QueryVmAggregateStats vm_moid counter_id duration Ret.
Definition query_vm_device_stats {Y} (vm_moid : pyval) (counter_id : Z)
    (duration : pyval) : prog Y (gmap string pynum) :=
  QueryVmDeviceStats vm_moid counter_id duration Ret.
End _ops.

(** ** The inspector *)

(** ['VM %s not found in VMware Vsphere' % instance.id] *)
Definition not_found_message (vm_id : string) : string :=
  "VM " +:+ vm_id +:+ " not found in VMware Vsphere".

Definition inspect_cpu_util (inst : instance) (duration : pyval)
  : prog Empty_set CPUUtilStats :=
  vm_moid ← _ops.get_vm_moid (instance_id inst);
  if is_None vm_moid then
    Raise (InstanceNotFoundException (not_found_message (instance_id inst)))
  else
    cpu_util_counter_id ← _ops.get_perf_counter_id VC_AVERAGE_CPU_CONSUMED_CNTR;
    cpu_util ← _ops.query_vm_aggregate_stats vm_moid cpu_util_counter_id duration;
    cpu_util ← lift (py_div cpu_util (PyInt 100));
    Ret {| util := cpu_util |}.

Definition inspect_memory_usage (inst : instance) (duration : pyval)
  : prog Empty_set MemoryUsageStats :=
  vm_moid ← _ops.get_vm_moid (instance_id inst);
  if is_None vm_moid then
    Raise (InstanceNotFoundException (not_found_message (instance_id inst)))
  else
    mem_counter_id ← _ops.get_perf_counter_id VC_AVERAGE_MEMORY_CONSUMED_CNTR;
    memory ← _ops.query_vm_aggregate_stats vm_moid mem_counter_id duration;
    memory ← lift (py_div memory units.Ki);
    Ret {| usage := memory |}.

(** A generator: nothing of the body runs before the first [next].  The
    order in which Python walks the set [vnic_ids] is not fixed by the
    set; [elements] stands for one such order, and the properties below
    say nothing that depends on which one it is. *)
Definition inspect_vnic_rates (inst : instance) (duration : pyval)
  : prog (Interface * InterfaceRateStats) unit :=
  vm_moid ← _ops.get_vm_moid (instance_id inst);
  if negb (truthy vm_moid) then
    Raise (InstanceNotFoundException (not_found_message (instance_id inst)))
  else
    '(vnic_stats, vnic_ids) ←
      for_fold [VC_NETWORK_RX_COUNTER; VC_NETWORK_TX_COUNTER]
        ((∅ : gmap string (gmap string pynum)), (∅ : gset string))
        (fun '(vnic_stats, vnic_ids) net_counter =>
           net_counter_id ← _ops.get_perf_counter_id net_counter;
           vnic_id_to_stats_map ←
             _ops.query_vm_device_stats vm_moid net_counter_id duration;
           Ret (<[net_counter := vnic_id_to_stats_map]> vnic_stats,
                vnic_ids ∪ dom vnic_id_to_stats_map));
    for_each (elements vnic_ids) (fun vnic_id =>
      rx_map ← getitem vnic_stats VC_NETWORK_RX_COUNTER;
      rx_bytes_rate ← lift (py_mul (default (PyInt 0) (rx_map !! vnic_id)) units.Ki);
      tx_map ← getitem vnic_stats VC_NETWORK_TX_COUNTER;
      tx_bytes_rate ← lift (py_mul (default (PyInt 0) (tx_map !! vnic_id)) units.Ki);
      let stats := {| rx_bytes_rate := rx_bytes_rate;
                      tx_bytes_rate := tx_bytes_rate |} in
      let interface := {| name := vnic_id;
                          mac := PyNone;
                          fref := PyNone;
                          parameters := PyNone |} in
      Yield (interface, stats) (Ret tt)).

(** A generator as well; [elements] stands for the order in which Python
    walks the set [disk_ids], as above. *)
Definition inspect_disk_rates (inst : instance) (duration : pyval)
  : prog (Disk * DiskRateStats) unit :=
  vm_moid ← _ops.get_vm_moid (instance_id inst);
  if negb (truthy vm_moid) then
    Raise (InstanceNotFoundException (not_found_message (instance_id inst)))
  else
    let disk_counters := [VC_DISK_READ_RATE_CNTR;
                          VC_DISK_READ_REQUESTS_RATE_CNTR;
                          VC_DISK_WRITE_RATE_CNTR;
                          VC_DISK_WRITE_REQUESTS_RATE_CNTR] in
    '(disk_stats, disk_ids) ←
      for_fold disk_counters
        ((∅ : gmap string (gmap string pynum)), (∅ : gset string))
        (fun '(disk_stats, disk_ids) disk_counter =>
           disk_counter_id ← _ops.get_perf_counter_id disk_counter;
           disk_id_to_stat_map ←
             _ops.query_vm_device_stats vm_moid disk_counter_id duration;
           Ret (<[disk_counter := disk_id_to_stat_map]> disk_stats,
                disk_ids ∪ dom disk_id_to_stat_map));
    for_each (elements disk_ids) (fun disk_id =>
      let stat_val (counter_name : string) : prog (Disk * DiskRateStats) pynum :=
        m ← getitem disk_stats counter_name;
        Ret (default (PyInt 0) (m !! disk_id)) in
      let disk := {| device := disk_id |} in
      rb ← stat_val VC_DISK_READ_RATE_CNTR;
      rb ← lift (py_mul rb units.Ki);
      rr ← stat_val VC_DISK_READ_REQUESTS_RATE_CNTR;
      wb ← stat_val VC_DISK_WRITE_RATE_CNTR;
      wb ← lift (py_mul wb units.Ki);
      wr ← stat_val VC_DISK_WRITE_REQUESTS_RATE_CNTR;
      let disk_rate_info := {| read_bytes_rate := rb;
                               read_requests_rate := rr;
                               write_bytes_rate := wb;
                               write_requests_rate := wr |} in
      Yield (disk, disk_rate_info) (Ret tt)).

(** ** The collaborator and the runs of a program *)

(** Modelled from the spec: the collaborator [VsphereOperations] behind
    [self._ops] (entity resolver, counter catalog and query engine).  A
    method answers or raises, and may change the collaborator's own state
    [S] (its caches, the provider behind it).  An answer is a value of its
    own: the dictionary of one query is not the dictionary of another. *)
Record VsphereOperations (S : Type) : Type :=
  { get_vm_moid : string -> S -> outcome pyval * S;
    get_perf_counter_id : string -> S -> outcome Z * S;
    query_vm_aggregate_stats :
      pyval -> Z -> pyval -> S -> outcome pynum * S;
    query_vm_device_stats :
      pyval -> Z -> pyval -> S -> outcome (gmap string pynum) * S }.
Arguments get_vm_moid {S} _ _ _.
Arguments get_perf_counter_id {S} _ _ _.
Arguments query_vm_aggregate_stats {S} _ _ _ _ _.
Arguments query_vm_device_stats {S} _ _ _ _ _.

(** What an observer of a run sees, in order: the calls on the
    collaborator with their answers, and the values yielded. *)
Inductive event (Y : Type) : Type :=
| EvGetVmMoid (vm_id : string) (r : outcome pyval)
| EvGetPerfCounterId (counter_name : string) (r : outcome Z)
| EvQueryVmAggregateStats (vm_moid : pyval) (counter_id : Z)
    (duration : pyval) (r : outcome pynum)
| EvQueryVmDeviceStats (vm_moid : pyval) (counter_id : Z)
    (duration : pyval) (r : outcome (gmap string pynum))
| EvYield (y : Y).
Arguments EvGetVmMoid {Y} vm_id r.
Arguments EvGetPerfCounterId {Y} counter_name r.
Arguments EvQueryVmAggregateStats {Y} vm_moid counter_id duration r.
Arguments EvQueryVmDeviceStats {Y} vm_moid counter_id duration r.
Arguments EvYield {Y} y.

(** The end of a run: how it ended, the state the collaborator is left in,
    and what happened on the way. *)
Record run_result (S Y A : Type) : Type :=
  { final : outcome A; final_state : S; trace : list (event Y) }.
Arguments final {S Y A} _.
Arguments final_state {S Y A} _.
Arguments trace {S Y A} _.

Definition after {S Y A} (ev : event Y) (r : run_result S Y A)
  : run_result S Y A :=
  {| final := final r; final_state := final_state r; trace := ev :: trace r |}.

Definition failed {S Y A} (ev : event Y) (e : exn) (s : S)
  : run_result S Y A :=
  {| final := Raised e; final_state := s; trace := [ev] |}.

(** A program run to its end; for a generator, the run of a consumer that
    exhausts it.  An exception of the collaborator is not caught: it ends
    the run. *)
Fixpoint run {S Y A} (ops : VsphereOperations S) (p : prog Y A) (s : S)
  : run_result S Y A :=
  match p with
  | Ret a => {| final := Returned a; final_state := s; trace := [] |}
  | Raise e => {| final := Raised e; final_state := s; trace := [] |}
  | GetVmMoid i k =>
      match get_vm_moid ops i s with
      | (Returned v, s') => after (EvGetVmMoid i (Returned v)) (run ops (k v) s')
      | (Raised e, s') => failed (EvGetVmMoid i (Raised e)) e s'
      end
  | GetPerfCounterId c k =>
      match get_perf_counter_id ops c s with
      | (Returned v, s') =>
          after (EvGetPerfCounterId c (Returned v)) (run ops (k v) s')
      | (Raised e, s') => failed (EvGetPerfCounterId c (Raised e)) e s'
      end
  | QueryVmAggregateStats m c d k =>
      match query_vm_aggregate_stats ops m c d s with
      | (Returned v, s') =>
          after (EvQueryVmAggregateStats m c d (Returned v)) (run ops (k v) s')
      | (Raised e, s') => failed (EvQueryVmAggregateStats m c d (Raised e)) e s'
      end
  | QueryVmDeviceStats m c d k =>
      match query_vm_device_stats ops m c d s with
      | (Returned v, s') =>
          after (EvQueryVmDeviceStats m c d (Returned v)) (run ops (k v) s')
      | (Raised e, s') => failed (EvQueryVmDeviceStats m c d (Raised e)) e s'
      end
  | Yield y k => after (EvYield y) (run ops k s)
  end.

(** One [next()] on a generator: the body runs up to its next [yield],
    to its end ([StopIteration]) or to an exception. *)
Inductive resumption (S Y : Type) : Type :=
| Yielded (y : Y) (rest : prog Y unit) (s : S) (calls : list (event Y))
| StopIteration (s : S) (calls : list (event Y))
| Failed (e : exn) (s : S) (calls : list (event Y)).
Arguments Yielded {S Y} y rest s calls.
Arguments StopIteration {S Y} s calls.
Arguments Failed {S Y} e s calls.

Definition called {S Y} (ev : event Y) (r : resumption S Y)
  : resumption S Y :=
  match r with
  | Yielded y rest s calls => Yielded y rest s (ev :: calls)
  | StopIteration s calls => StopIteration s (ev :: calls)
  | Failed e s calls => Failed e s (ev :: calls)
  end.

Fixpoint next {S Y} (ops : VsphereOperations S) (g : prog Y unit) (s : S)
  : resumption S Y :=
  match g with
  | Ret _ => StopIteration s []
  | Raise e => Failed e s []
  | GetVmMoid i k =>
      match get_vm_moid ops i s with
      | (Returned v, s') => called (EvGetVmMoid i (Returned v)) (next ops (k v) s')
      | (Raised e, s') => Failed e s' [EvGetVmMoid i (Raised e)]
      end
  | GetPerfCounterId c k =>
      match get_perf_counter_id ops c s with
      | (Returned v, s') =>
          called (EvGetPerfCounterId c (Returned v)) (next ops (k v) s')
      | (Raised e, s') => Failed e s' [EvGetPerfCounterId c (Raised e)]
      end
  | QueryVmAggregateStats m c d k =>
      match query_vm_aggregate_stats ops m c d s with
      | (Returned v, s') =>
          called (EvQueryVmAggregateStats m c d (Returned v)) (next ops (k v) s')
      | (Raised e, s') => Failed e s' [EvQueryVmAggregateStats m c d (Raised e)]
      end
  | QueryVmDeviceStats m c d k =>
      match query_vm_device_stats ops m c d s with
      | (Returned v, s') =>
          called (EvQueryVmDeviceStats m c d (Returned v)) (next ops (k v) s')
      | (Raised e, s') => Failed e s' [EvQueryVmDeviceStats m c d (Raised e)]
      end
  | Yield y k => Yielded y k s []
  end.

(** *** Reading a trace *)

(** The values yielded, in order. *)
Fixpoint yields {Y} (tr : list (event Y)) : list Y :=
  match tr with
  | [] => []
  | EvYield y :: tr' => y :: yields tr'
  | _ :: tr' => yields tr'
  end.

(** The per-device maps the query engine returned, in order. *)
Fixpoint device_maps {Y} (tr : list (event Y)) : list (gmap string pynum) :=
  match tr with
  | [] => []
  | EvQueryVmDeviceStats _ _ _ (Returned m) :: tr' => m :: device_maps tr'
  | _ :: tr' => device_maps tr'
  end.

(** A call on the collaborator, without its answer. *)
Inductive call : Type :=
| CallGetVmMoid (vm_id : string)
| CallGetPerfCounterId (counter_name : string)
| CallQueryVmAggregateStats (vm_moid : pyval) (counter_id : Z) (duration : pyval)
| CallQueryVmDeviceStats (vm_moid : pyval) (counter_id : Z) (duration : pyval).

(** The calls made, in order. *)
Fixpoint calls {Y} (tr : list (event Y)) : list call :=
  match tr with
  | [] => []
  | EvGetVmMoid i _ :: tr' => CallGetVmMoid i :: calls tr'
  | EvGetPerfCounterId c _ :: tr' => CallGetPerfCounterId c :: calls tr'
  | EvQueryVmAggregateStats m c d _ :: tr' =>
      CallQueryVmAggregateStats m c d :: calls tr'
  | EvQueryVmDeviceStats m c d _ :: tr' =>
      CallQueryVmDeviceStats m c d :: calls tr'
  | EvYield _ :: tr' => calls tr'
  end.

(** The answers that are exceptions. *)
Definition raised_by_collaborator {Y} (ev : event Y) : bool :=
  match ev with
  | EvGetVmMoid _ (Raised _)
  | EvGetPerfCounterId _ (Raised _)
  | EvQueryVmAggregateStats _ _ _ (Raised _)
  | EvQueryVmDeviceStats _ _ _ (Raised _) => true
  | _ => false
  end.

(** ** A scripted collaborator *)

(** A deterministic stub: every answer is a function of the arguments of
    the call; the state counts the calls served. *)
Definition stub_ops
    (moid_of : string -> outcome pyval)
    (counter_of : string -> outcome Z)
    (aggregate : pyval -> Z -> pyval -> outcome pynum)
    (per_device : pyval -> Z -> pyval -> outcome (gmap string pynum))
  : VsphereOperations nat :=
  {| get_vm_moid := fun i n => (moid_of i, S n);
     get_perf_counter_id := fun c n => (counter_of c, S n);
     query_vm_aggregate_stats := fun m c d n => (aggregate m c d, S n);
     query_vm_device_stats := fun m c d n => (per_device m c d, S n) |}.

(** The catalog of the scenarios: the eight counters, numbered. *)
Definition catalog (counter_name : string) : outcome Z :=
  if String.eqb counter_name VC_AVERAGE_CPU_CONSUMED_CNTR then Returned 1
  else if String.eqb counter_name VC_AVERAGE_MEMORY_CONSUMED_CNTR then Returned 2
  else if String.eqb counter_name VC_NETWORK_RX_COUNTER then Returned 3
  else if String.eqb counter_name VC_NETWORK_TX_COUNTER then Returned 4
  else if String.eqb counter_name VC_DISK_READ_RATE_CNTR then Returned 5
  else if String.eqb counter_name VC_DISK_READ_REQUESTS_RATE_CNTR then Returned 6
  else if String.eqb counter_name VC_DISK_WRITE_RATE_CNTR then Returned 7
  else if String.eqb counter_name VC_DISK_WRITE_REQUESTS_RATE_CNTR then Returned 8
  else Raised (CollaboratorError "unknown counter").

(** No instance is known. *)
Definition absent (vm_id : string) : outcome pyval := Returned PyNone.

(** Every instance resolves to the empty string. *)
Definition blank (vm_id : string) : outcome pyval := Returned (PyStr "").

(** Every instance is known, with moid [<id>-moid]. *)
Definition inventory (vm_id : string) : outcome pyval :=
  Returned (PyStr (vm_id +:+ "-moid")).

(** A provider that answers [v] to the aggregate queries and, per device,
    the map registered for the counter's number. *)
Definition provider (v : pynum) (maps : gmap Z (gmap string pynum))
  : VsphereOperations nat :=
  stub_ops inventory catalog
    (fun _ _ _ => Returned v)
    (fun _ c _ => Returned (default ∅ (maps !! c))).

Definition vm (vm_id : string) : instance := {| instance_id := vm_id |}.

(** ** What the conversions are meant to compute *)

(** Kilobytes per second to bytes per second: [v * 1024], on integers and
    on floats. *)
Definition kb_to_bytes (v : pynum) : pynum :=
  match v with
  | PyInt z => PyInt (z * 1024)
  | PyFloat f => PyFloat (PrimFloat.mul f 1024%float)
  end.

(** What [inspect_vnic_rates] is to yield for device [d], given the maps
    of the two counters. *)
Definition vnic_pair (rx tx : gmap string pynum) (d : string)
  : Interface * InterfaceRateStats :=
  ({| name := d; mac := PyNone; fref := PyNone; parameters := PyNone |},
   {| rx_bytes_rate := kb_to_bytes (default (PyInt 0) (rx !! d));
      tx_bytes_rate := kb_to_bytes (default (PyInt 0) (tx !! d)) |}).

(** What [inspect_disk_rates] is to yield for device [d], given the maps
    of the four counters. *)
Definition disk_pair (rb rr wb wr : gmap string pynum) (d : string)
  : Disk * DiskRateStats :=
  ({| device := d |},
   {| read_bytes_rate := kb_to_bytes (default (PyInt 0) (rb !! d));
      read_requests_rate := default (PyInt 0) (rr !! d);
      write_bytes_rate := kb_to_bytes (default (PyInt 0) (wb !! d));
      write_requests_rate := default (PyInt 0) (wr !! d) |}).

(** A generator that has no call left to make: it only yields. *)
Fixpoint call_free {Y A} (p : prog Y A) : bool :=
  match p with
  | Ret _ | Raise _ => true
  | Yield _ k => call_free k
  | _ => false
  end.

(** A collaborator whose answers depend on the call alone, not on the
    state it is in. *)
Definition deterministic {S} (ops : VsphereOperations S) : Prop :=
  (∀ i s s', (get_vm_moid ops i s).1 = (get_vm_moid ops i s').1) ∧
  (∀ c s s', (get_perf_counter_id ops c s).1 = (get_perf_counter_id ops c s').1) ∧
  (∀ m c d s s',
     (query_vm_aggregate_stats ops m c d s).1
     = (query_vm_aggregate_stats ops m c d s').1) ∧
  (∀ m c d s s',
     (query_vm_device_stats ops m c d s).1
     = (query_vm_device_stats ops m c d s').1).

(** The aggregate values the query engine returned, in order. *)
Fixpoint aggregate_values {Y} (tr : list (event Y)) : list pynum :=
  match tr with
  | [] => []
  | EvQueryVmAggregateStats _ _ _ (Returned v) :: tr' => v :: aggregate_values tr'
  | _ :: tr' => aggregate_values tr'
  end.

(** The run of an inspection that found no instance: one call, one
    exception. *)
Definition not_found {S Y A} (vm_id : string) (moid : pyval) (s : S)
  : run_result S Y A :=
  {| final := Raised (InstanceNotFoundException (not_found_message vm_id));
     final_state := s;
     trace := [EvGetVmMoid vm_id (Returned moid)] |}.

(** A run that went on to resolve counter [c] after the entity. *)
Definition proceeds {Y} (vm_id : string) (moid : pyval) (c : string)
    (tr : list (event Y)) : Prop :=
  ∃ r tr', tr = EvGetVmMoid vm_id (Returned moid) :: EvGetPerfCounterId c r :: tr'.

(** The successful counter resolutions, in order: name and id. *)
Fixpoint resolved_counters {Y} (tr : list (event Y)) : list (string * Z) :=
  match tr with
  | [] => []
  | EvGetPerfCounterId c (Returned n) :: tr' => (c, n) :: resolved_counters tr'
  | _ :: tr' => resolved_counters tr'
  end.

(** One pair for each device of the union of the two maps, and a zero
    where a map has no entry for the device. *)
Definition vnic_union (rx tx : gmap string pynum)
    (ys : list (Interface * InterfaceRateStats)) : Prop :=
  NoDup ((name ∘ fst) <$> ys)
  ∧ (∀ d, d ∈ (name ∘ fst) <$> ys ↔ d ∈ dom rx ∪ dom tx)
  ∧ (∀ i st, (i, st) ∈ ys →
       (rx !! name i = None → rx_bytes_rate st = PyInt 0)
       ∧ (tx !! name i = None → tx_bytes_rate st = PyInt 0)).

(** One pair for each device of the union of the four maps, and a zero
    where a map has no entry for the device. *)
Definition disk_union (rb rr wb wr : gmap string pynum)
    (ys : list (Disk * DiskRateStats)) : Prop :=
  NoDup ((device ∘ fst) <$> ys)
  ∧ (∀ d, d ∈ (device ∘ fst) <$> ys ↔ d ∈ dom rb ∪ dom rr ∪ dom wb ∪ dom wr)
  ∧ (∀ k st, (k, st) ∈ ys →
       (rb !! device k = None → read_bytes_rate st = PyInt 0)
       ∧ (rr !! device k = None → read_requests_rate st = PyInt 0)
       ∧ (wb !! device k = None → write_bytes_rate st = PyInt 0)
       ∧ (wr !! device k = None → write_requests_rate st = PyInt 0)).

(** Every raw rate [v] of either map comes out, in the pair of its
    device, as [v] times 1024; and every pair holds nothing else for a
    device its counter has a raw rate for. *)
Definition vnic_converted (rx tx : gmap string pynum)
    (ys : list (Interface * InterfaceRateStats)) : Prop :=
  (∀ d v, rx !! d = Some v →
     ∃ i st, (i, st) ∈ ys ∧ name i = d ∧ rx_bytes_rate st = kb_to_bytes v)
  ∧ (∀ d v, tx !! d = Some v →
       ∃ i st, (i, st) ∈ ys ∧ name i = d ∧ tx_bytes_rate st = kb_to_bytes v)
  ∧ (∀ i st, (i, st) ∈ ys →
       (∀ v, rx !! name i = Some v → rx_bytes_rate st = kb_to_bytes v)
       ∧ (∀ v, tx !! name i = Some v → tx_bytes_rate st = kb_to_bytes v)).

(** Every raw rate [v] of the four maps comes out, in the pair of its
    device, as [v] times 1024 when it is a byte rate and as [v] itself
    when it is a request rate; and every pair holds nothing else for a
    device its counter has a raw rate for. *)
Definition disk_converted (rb rr wb wr : gmap string pynum)
    (ys : list (Disk * DiskRateStats)) : Prop :=
  (∀ d v, rb !! d = Some v →
     ∃ k st, (k, st) ∈ ys ∧ device k = d ∧ read_bytes_rate st = kb_to_bytes v)
  ∧ (∀ d v, rr !! d = Some v →
       ∃ k st, (k, st) ∈ ys ∧ device k = d ∧ read_requests_rate st = v)
  ∧ (∀ d v, wb !! d = Some v →
       ∃ k st, (k, st) ∈ ys ∧ device k = d ∧ write_bytes_rate st = kb_to_bytes v)
  ∧ (∀ d v, wr !! d = Some v →
       ∃ k st, (k, st) ∈ ys ∧ device k = d ∧ write_requests_rate st = v)
  ∧ (∀ k st, (k, st) ∈ ys →
       (∀ v, rb !! device k = Some v → read_bytes_rate st = kb_to_bytes v)
       ∧ (∀ v, rr !! device k = Some v → read_requests_rate st = v)
       ∧ (∀ v, wb !! device k = Some v → write_bytes_rate st = kb_to_bytes v)
       ∧ (∀ v, wr !! device k = Some v → write_requests_rate st = v)).

(** The calls of a complete network inspection. *)
Definition vnic_calls (vm_id : string) (moid : pyval) (duration : pyval)
    (c_rx c_tx : Z) : list call :=
  [CallGetVmMoid vm_id;
   CallGetPerfCounterId VC_NETWORK_RX_COUNTER;
   CallQueryVmDeviceStats moid c_rx duration;
   CallGetPerfCounterId VC_NETWORK_TX_COUNTER;
   CallQueryVmDeviceStats moid c_tx duration].

(** The calls of a complete disk inspection. *)
Definition disk_calls (vm_id : string) (moid : pyval) (duration : pyval)
    (c_rb c_rr c_wb c_wr : Z) : list call :=
  [CallGetVmMoid vm_id;
   CallGetPerfCounterId VC_DISK_READ_RATE_CNTR;
   CallQueryVmDeviceStats moid c_rb duration;
   CallGetPerfCounterId VC_DISK_READ_REQUESTS_RATE_CNTR;
   CallQueryVmDeviceStats moid c_rr duration;
   CallGetPerfCounterId VC_DISK_WRITE_RATE_CNTR;
   CallQueryVmDeviceStats moid c_wb duration;
   CallGetPerfCounterId VC_DISK_WRITE_REQUESTS_RATE_CNTR;
   CallQueryVmDeviceStats moid c_wr duration].

(** The dictionary [vnic_stats] once the two counters are queried. *)
Definition vnic_stats_dict (rx tx : gmap string pynum)
  : gmap string (gmap string pynum) :=
  <[VC_NETWORK_TX_COUNTER:=tx]> (<[VC_NETWORK_RX_COUNTER:=rx]> ∅).

(** The dictionary [disk_stats] once the four counters are queried. *)
Definition disk_stats_dict (rb rr wb wr : gmap string pynum)
  : gmap string (gmap string pynum) :=
  <[VC_DISK_WRITE_REQUESTS_RATE_CNTR:=wr]>
    (<[VC_DISK_WRITE_RATE_CNTR:=wb]>
       (<[VC_DISK_READ_REQUESTS_RATE_CNTR:=rr]>
          (<[VC_DISK_READ_RATE_CNTR:=rb]> ∅))).

(** The events of a network inspection that went through. *)
Definition vnic_trace (vm_id : string) (moid duration : pyval)
    (c_rx : Z) (rx : gmap string pynum) (c_tx : Z) (tx : gmap string pynum)
  : list (event (Interface * InterfaceRateStats)) :=
  [EvGetVmMoid vm_id (Returned moid);
   EvGetPerfCounterId VC_NETWORK_RX_COUNTER (Returned c_rx);
   EvQueryVmDeviceStats moid c_rx duration (Returned rx);
   EvGetPerfCounterId VC_NETWORK_TX_COUNTER (Returned c_tx);
   EvQueryVmDeviceStats moid c_tx duration (Returned tx)]
  ++ (EvYield <$> (vnic_pair rx tx <$> elements (dom rx ∪ dom tx))).

(** The events of a disk inspection that went through. *)
Definition disk_trace (vm_id : string) (moid duration : pyval)
    (c_rb : Z) (rb : gmap string pynum) (c_rr : Z) (rr : gmap string pynum)
    (c_wb : Z) (wb : gmap string pynum) (c_wr : Z) (wr : gmap string pynum)
  : list (event (Disk * DiskRateStats)) :=
  [EvGetVmMoid vm_id (Returned moid);
   EvGetPerfCounterId VC_DISK_READ_RATE_CNTR (Returned c_rb);
   EvQueryVmDeviceStats moid c_rb duration (Returned rb);
   EvGetPerfCounterId VC_DISK_READ_REQUESTS_RATE_CNTR (Returned c_rr);
   EvQueryVmDeviceStats moid c_rr duration (Returned rr);
   EvGetPerfCounterId VC_DISK_WRITE_RATE_CNTR (Returned c_wb);
   EvQueryVmDeviceStats moid c_wb duration (Returned wb);
   EvGetPerfCounterId VC_DISK_WRITE_REQUESTS_RATE_CNTR (Returned c_wr);
   EvQueryVmDeviceStats moid c_wr duration (Returned wr)]
  ++ (EvYield <$> (disk_pair rb rr wb wr
                     <$> elements (dom rb ∪ dom rr ∪ dom wb ∪ dom wr))).

(** The second scenario of the specification: rx [{nic-0: 100}], tx
    [{nic-0: 50, nic-1: 20}]. *)
Definition scenario_rx : gmap string pynum := {[ "nic-0" := PyInt 100 ]}.
Definition scenario_tx : gmap string pynum :=
  {[ "nic-0" := PyInt 50; "nic-1" := PyInt 20 ]}.
Definition scenario_net : gmap Z (gmap string pynum) :=
  {[ 3 := scenario_rx; 4 := scenario_tx ]}.

(** Four disk counters that disagree on the devices they report. *)
Definition scenario_rb : gmap string pynum := {[ "sda" := PyInt 10 ]}.
Definition scenario_rr : gmap string pynum := {[ "sda" := PyFloat 2.5 ]}.
Definition scenario_wb : gmap string pynum := {[ "sdb" := PyFloat 0.5 ]}.
Definition scenario_wr : gmap string pynum := {[ "sdb" := PyInt 7 ]}.
Definition scenario_disk : gmap Z (gmap string pynum) :=
  {[ 5 := scenario_rb; 6 := scenario_rr; 7 := scenario_wb; 8 := scenario_wr ]}.

(** A provider that serves both scenarios. *)
Definition scenario_maps : gmap Z (gmap string pynum) :=
  scenario_net ∪ scenario_disk.

Definition scenario_ops : VsphereOperations nat :=
  provider (PyInt 4567) scenario_maps.

(** A query that raises on the second counter: the first [next] fails
    and no pair was yielded. *)
Definition failing_tx : VsphereOperations nat :=
  stub_ops inventory catalog (λ _ _ _, Returned (PyInt 0))
    (λ _ c _, if (c =? 3)%Z then Returned scenario_rx
              else Raised (CollaboratorError "transport")).

(** ** Reading the end of a run *)

(** The exception an event carries, when it is a call that raised. *)
Definition raised_exn {Y} (ev : event Y) : option exn :=
  match ev with
  | EvGetVmMoid _ (Raised e)
  | EvGetPerfCounterId _ (Raised e)
  | EvQueryVmAggregateStats _ _ _ (Raised e)
  | EvQueryVmDeviceStats _ _ _ (Raised e) => Some e
  | _ => None
  end.

(** The last thing that happened is a call on the collaborator that
    raised [e]. *)
Definition collaborator_raised {Y} (e : exn) (tr : list (event Y)) : Prop :=
  last tr ≫= raised_exn = Some e.

(** A run that, when it ends on an exception, ends either on the
    inspector's own [InstanceNotFoundException] (raised on an answer
    [moid] of the entity resolver that [rejected] holds of, after that
    one call) or on the exception of the call it made last. *)
Definition raises_only_not_found {S Y A} (vm_id : string)
    (rejected : pyval → bool) (r : run_result S Y A) : Prop :=
  match final r with
  | Returned _ => True
  | Raised e =>
      (∃ moid, rejected moid = true
               ∧ r = not_found vm_id moid (final_state r))
      ∨ collaborator_raised e (trace r)
  end.

(** The events of an aggregate inspection that went through. *)
Definition aggregate_trace (vm_id : string) (moid duration : pyval)
    (counter : string) (cid : Z) (v : pynum) : list (event Empty_set) :=
  [EvGetVmMoid vm_id (Returned moid);
   EvGetPerfCounterId counter (Returned cid);
   EvQueryVmAggregateStats moid cid duration (Returned v)].

(** The calls of a complete aggregate inspection. *)
Definition aggregate_calls (vm_id : string) (moid duration : pyval)
    (counter : string) (cid : Z) : list call :=
  [CallGetVmMoid vm_id;
   CallGetPerfCounterId counter;
   CallQueryVmAggregateStats moid cid duration].

(** A second provider for the network scenario: other moids, other
    counter ids, and a state that counts down. *)
Definition other_ops : VsphereOperations Z :=
  {| get_vm_moid := λ i n, (Returned (PyStr ("moid/" +:+ i)), n - 1);
     get_perf_counter_id := λ c n,
       (Returned (Z.of_nat (String.length c)), n - 1);
     query_vm_aggregate_stats := λ _ _ _ n, (Returned (PyFloat 0.5), n - 1);
     query_vm_device_stats := λ _ c _ n,
       (Returned (if (c =? 20)%Z then scenario_rx
                  else if (c =? 23)%Z then scenario_tx
                  else if (c =? 17)%Z then scenario_rb
                  else if (c =? 31)%Z then scenario_rr
                  else if (c =? 18)%Z then scenario_wb
                  else scenario_wr), n - 1) |}.

(** * Properties *)

(** ** Arithmetic *)

Lemma float_of_int_100 : float_of_int 100 = Returned 100%float.
Proof. reflexivity. Qed.

Lemma float_of_int_1024 : float_of_int 1024 = Returned 1024%float.
Proof. reflexivity. Qed.

Lemma py_mul_Ki (v : pynum) : py_mul v units.Ki = Returned (kb_to_bytes v).
Proof. destruct v as [z|f]; reflexivity. Qed.

Lemma py_div_int (z d : Z) :
  d ≠ 0 → py_div (PyInt z) (PyInt d) = Returned (PyInt (z / d)).
Proof.
  intros Hd. unfold py_div.
  destruct (Z.eqb_spec d 0) as [->|_]; [contradiction | reflexivity].
Qed.

Lemma py_div_float_100 (f : float) :
  py_div (PyFloat f) (PyInt 100) = Returned (PyFloat (PrimFloat.div f 100%float)).
Proof. reflexivity. Qed.

Lemma py_div_float_Ki (f : float) :
  py_div (PyFloat f) units.Ki = Returned (PyFloat (PrimFloat.div f 1024%float)).
Proof. reflexivity. Qed.

(** ** Runs *)

Section Runs.
Context {S Y : Type} (ops : VsphereOperations S).

Lemma run_for_each_yield {X} (body : X → prog Y unit) (f : X → Y) l s :
  (∀ x, body x = Yield (f x) (Ret tt)) →
  run ops (for_each l body) s
  = {| final := Returned tt; final_state := s;
       trace := EvYield <$> (f <$> l) |}.
Proof.
  intros Hbody. induction l as [|x l IH]; [reflexivity|].
  cbn [for_each]. rewrite Hbody. cbn. rewrite IH. reflexivity.
Qed.

Lemma call_free_for_each {X} (body : X → prog Y unit) (f : X → Y) l :
  (∀ x, body x = Yield (f x) (Ret tt)) →
  call_free (for_each l body) = true.
Proof.
  intros Hbody. induction l as [|x l IH]; [reflexivity|].
  cbn [for_each]. rewrite Hbody. cbn. exact IH.
Qed.

Lemma next_for_each_yield {X} (body : X → prog Y unit) (f : X → Y) l s :
  (∀ x, body x = Yield (f x) (Ret tt)) →
  next ops (for_each l body) s
  = match l with
    | [] => StopIteration s []
    | x :: l' => Yielded (f x) (for_each l' body) s []
    end.
Proof.
  intros Hbody. destruct l as [|x l]; [reflexivity|].
  cbn [for_each]. rewrite Hbody. reflexivity.
Qed.

Lemma yields_EvYield (ys : list Y) : yields (EvYield <$> ys) = ys.
Proof. induction ys as [|y ys IH]; [reflexivity|]. cbn. by rewrite IH. Qed.

Lemma calls_EvYield (ys : list Y) : calls (EvYield <$> ys) = [].
Proof. induction ys as [|y ys IH]; [reflexivity|]. exact IH. Qed.

Lemma device_maps_EvYield (ys : list Y) : device_maps (EvYield <$> ys) = [].
Proof. induction ys as [|y ys IH]; [reflexivity|]. exact IH. Qed.

Lemma raised_EvYield (ys : list Y) :
  forallb (λ ev, negb (raised_by_collaborator ev)) (EvYield <$> ys) = true.
Proof. induction ys as [|y ys IH]; [reflexivity|]. exact IH. Qed.

(** A call-free generator makes no call, whatever it is run against. *)
Lemma call_free_run (g : prog Y unit) s :
  call_free g = true → calls (trace (run ops g s)) = [].
Proof.
  induction g as [a|e| | | | |y k IH]; cbn; first [done | auto].
Qed.

(** Resuming a generator after its first [yield] and exhausting the
    rest is exhausting it in one go. *)
Lemma run_next (g : prog Y unit) s :
  match next ops g s with
  | Yielded y rest s' cs =>
      run ops g s
      = {| final := final (run ops rest s');
           final_state := final_state (run ops rest s');
           trace := cs ++ EvYield y :: trace (run ops rest s') |}
  | StopIteration s' cs =>
      run ops g s
      = {| final := Returned tt; final_state := s'; trace := cs |}
  | Failed e s' cs =>
      run ops g s = {| final := Raised e; final_state := s'; trace := cs |}
  end.
Proof.
  revert s.
  induction g as [[]|e|i k IH|c k IH|m c d k IH|m c d k IH|y k IH];
    intros s; cbn; try reflexivity.
  - destruct (get_vm_moid ops i s) as [[v|e] s']; [|reflexivity].
    specialize (IH v s'). destruct (next ops (k v) s'); cbn; by rewrite IH.
  - destruct (get_perf_counter_id ops c s) as [[v|e] s']; [|reflexivity].
    specialize (IH v s'). destruct (next ops (k v) s'); cbn; by rewrite IH.
  - destruct (query_vm_aggregate_stats ops m c d s) as [[v|e] s']; [|reflexivity].
    specialize (IH v s'). destruct (next ops (k v) s'); cbn; by rewrite IH.
  - destruct (query_vm_device_stats ops m c d s) as [[v|e] s']; [|reflexivity].
    specialize (IH v s'). destruct (next ops (k v) s'); cbn; by rewrite IH.
Qed.

(** Against a deterministic collaborator the state a run starts in does
    not show in how it ends nor in what is observed of it. *)
Lemma deterministic_run {A} (p : prog Y A) :
  deterministic ops →
  ∀ s s', final (run ops p s) = final (run ops p s')
          ∧ trace (run ops p s) = trace (run ops p s').
Proof.
  intros (Hmoid & Hctr & Hagg & Hdev).
  induction p as [a|e|i k IH|c k IH|m c d k IH|m c d k IH|y k IH];
    intros s s'; cbn; try done.
  - specialize (Hmoid i s s').
    destruct (get_vm_moid ops i s) as [[v|e] s1],
             (get_vm_moid ops i s') as [[v'|e'] s1']; cbn in Hmoid;
      simplify_eq; [|done].
    unfold after; cbn. destruct (IH v' s1 s1') as [-> ->]. done.
  - specialize (Hctr c s s').
    destruct (get_perf_counter_id ops c s) as [[v|e] s1],
             (get_perf_counter_id ops c s') as [[v'|e'] s1']; cbn in Hctr;
      simplify_eq; [|done].
    unfold after; cbn. destruct (IH v' s1 s1') as [-> ->]. done.
  - specialize (Hagg m c d s s').
    destruct (query_vm_aggregate_stats ops m c d s) as [[v|e] s1],
             (query_vm_aggregate_stats ops m c d s') as [[v'|e'] s1'];
      cbn in Hagg; simplify_eq; [|done].
    unfold after; cbn. destruct (IH v' s1 s1') as [-> ->]. done.
  - specialize (Hdev m c d s s').
    destruct (query_vm_device_stats ops m c d s) as [[v|e] s1],
             (query_vm_device_stats ops m c d s') as [[v'|e'] s1'];
      cbn in Hdev; simplify_eq; [|done].
    unfold after; cbn. destruct (IH v' s1 s1') as [-> ->]. done.
  - unfold after; cbn. destruct (IH s s') as [-> ->]. done.
Qed.
End Runs.

(** ** The dictionaries of the fan-out inspections *)

Lemma vnic_stats_rx (rx tx : gmap string pynum) :
  vnic_stats_dict rx tx !! VC_NETWORK_RX_COUNTER = Some rx.
Proof.
  unfold vnic_stats_dict. rewrite lookup_insert_ne by done.
  apply lookup_insert_eq.
Qed.

Lemma vnic_stats_tx (rx tx : gmap string pynum) :
  vnic_stats_dict rx tx !! VC_NETWORK_TX_COUNTER = Some tx.
Proof. apply lookup_insert_eq. Qed.

Lemma disk_stats_rb (rb rr wb wr : gmap string pynum) :
  disk_stats_dict rb rr wb wr !! VC_DISK_READ_RATE_CNTR = Some rb.
Proof.
  unfold disk_stats_dict. do 3 (rewrite lookup_insert_ne by done).
  apply lookup_insert_eq.
Qed.

Lemma disk_stats_rr (rb rr wb wr : gmap string pynum) :
  disk_stats_dict rb rr wb wr !! VC_DISK_READ_REQUESTS_RATE_CNTR = Some rr.
Proof.
  unfold disk_stats_dict. do 2 (rewrite lookup_insert_ne by done).
  apply lookup_insert_eq.
Qed.

Lemma disk_stats_wb (rb rr wb wr : gmap string pynum) :
  disk_stats_dict rb rr wb wr !! VC_DISK_WRITE_RATE_CNTR = Some wb.
Proof.
  unfold disk_stats_dict. rewrite lookup_insert_ne by done.
  apply lookup_insert_eq.
Qed.

Lemma disk_stats_wr (rb rr wb wr : gmap string pynum) :
  disk_stats_dict rb rr wb wr !! VC_DISK_WRITE_REQUESTS_RATE_CNTR = Some wr.
Proof. apply lookup_insert_eq. Qed.

(** ** The shape of a run of a fan-out inspection *)

(** The next call on the collaborator in the goal, answered or raising. *)
Ltac answer :=
  match goal with
  | |- context [get_vm_moid ?o ?a1 ?a2] =>
      destruct (get_vm_moid o a1 a2) as [[?moid|?e] ?s] eqn:?
  | |- context [get_perf_counter_id ?o ?a1 ?a2] =>
      destruct (get_perf_counter_id o a1 a2) as [[?c|?e] ?s] eqn:?
  | |- context [query_vm_aggregate_stats ?o ?a1 ?a2 ?a3 ?a4] =>
      destruct (query_vm_aggregate_stats o a1 a2 a3 a4) as [[?v|?e] ?s] eqn:?
  | |- context [query_vm_device_stats ?o ?a1 ?a2 ?a3 ?a4] =>
      destruct (query_vm_device_stats o a1 a2 a3 a4) as [[?m|?e] ?s] eqn:?
  end; cbn.

Section FanOut.
Context {S : Type} (ops : VsphereOperations S).

Lemma vnic_body (rx tx : gmap string pynum) (vnic_id : string) :
  (let vnic_stats := vnic_stats_dict rx tx in
   rx_map ← getitem vnic_stats VC_NETWORK_RX_COUNTER;
   rx_bytes_rate ← lift (py_mul (default (PyInt 0) (rx_map !! vnic_id)) units.Ki);
   tx_map ← getitem vnic_stats VC_NETWORK_TX_COUNTER;
   tx_bytes_rate ← lift (py_mul (default (PyInt 0) (tx_map !! vnic_id)) units.Ki);
   Yield ({| name := vnic_id; mac := PyNone; fref := PyNone;
             parameters := PyNone |},
          {| rx_bytes_rate := rx_bytes_rate;
             tx_bytes_rate := tx_bytes_rate |}) (Ret tt))
  = Yield (vnic_pair rx tx vnic_id) (Ret tt).
Proof.
  cbn zeta. unfold getitem.
  rewrite vnic_stats_rx, vnic_stats_tx. cbn.
  rewrite !py_mul_Ki. reflexivity.
Qed.

Lemma run_inspect_vnic_rates (inst : instance) (duration : pyval) (s : S) :
  let r := run ops (inspect_vnic_rates inst duration) s in
  (∃ moid c_rx rx c_tx tx,
      truthy moid = true ∧ final r = Returned tt ∧
      trace r = vnic_trace (instance_id inst) moid duration c_rx rx c_tx tx)
  ∨ (∃ e moid c_rx c_tx,
        final r = Raised e ∧ yields (trace r) = [] ∧
        (length (device_maps (trace r)) < 2)%nat ∧
        calls (trace r)
          `prefix_of` vnic_calls (instance_id inst) moid duration c_rx c_tx).
Proof.
  cbn. answer; [destruct (truthy moid) eqn:Hmoid; cbn|].
  - answer; [answer; [answer; [answer|]|]|].
    + left. exists moid, c, m, c0, m0. split_and!; [done| |].
      * rewrite (run_for_each_yield ops _ (vnic_pair m m0)); [done|].
        intros d. apply vnic_body.
      * rewrite (run_for_each_yield ops _ (vnic_pair m m0));
          [|intros d; apply vnic_body].
        cbn. unfold vnic_trace. by rewrite (left_id_L ∅ (∪)).
    + right. exists e, moid, c, c0. split_and!; [done | done | cbn; lia |].
      eexists; reflexivity.
    + right. exists e, moid, c, 0. split_and!; [done | done | cbn; lia |].
      eexists; reflexivity.
    + right. exists e, moid, c, 0. split_and!; [done | done | cbn; lia |].
      eexists; reflexivity.
    + right. exists e, moid, 0, 0. split_and!; [done | done | cbn; lia |].
      eexists; reflexivity.
  - right. eexists _, moid, 0, 0. split_and!; [done | done | cbn; lia |].
    eexists; reflexivity.
  - right. exists e, PyNone, 0, 0. split_and!; [done | done | cbn; lia |].
    eexists; reflexivity.
Qed.

Lemma disk_body (rb rr wb wr : gmap string pynum) (disk_id : string) :
  (let disk_stats := disk_stats_dict rb rr wb wr in
   let stat_val (counter_name : string) : prog (Disk * DiskRateStats) pynum :=
     m ← getitem disk_stats counter_name;
     Ret (default (PyInt 0) (m !! disk_id)) in
   let disk := {| device := disk_id |} in
   v_rb ← stat_val VC_DISK_READ_RATE_CNTR;
   v_rb ← lift (py_mul v_rb units.Ki);
   v_rr ← stat_val VC_DISK_READ_REQUESTS_RATE_CNTR;
   v_wb ← stat_val VC_DISK_WRITE_RATE_CNTR;
   v_wb ← lift (py_mul v_wb units.Ki);
   v_wr ← stat_val VC_DISK_WRITE_REQUESTS_RATE_CNTR;
   Yield (disk, {| read_bytes_rate := v_rb;
                   read_requests_rate := v_rr;
                   write_bytes_rate := v_wb;
                   write_requests_rate := v_wr |}) (Ret tt))
  = Yield (disk_pair rb rr wb wr disk_id) (Ret tt).
Proof.
  cbn zeta. unfold getitem.
  rewrite disk_stats_rb, disk_stats_rr, disk_stats_wb, disk_stats_wr. cbn.
  rewrite !py_mul_Ki. reflexivity.
Qed.

Lemma run_inspect_disk_rates (inst : instance) (duration : pyval) (s : S) :
  let r := run ops (inspect_disk_rates inst duration) s in
  (∃ moid c_rb rb c_rr rr c_wb wb c_wr wr,
      truthy moid = true ∧ final r = Returned tt ∧
      trace r = disk_trace (instance_id inst) moid duration
                  c_rb rb c_rr rr c_wb wb c_wr wr)
  ∨ (∃ e moid c_rb c_rr c_wb c_wr,
        final r = Raised e ∧ yields (trace r) = [] ∧
        (length (device_maps (trace r)) < 4)%nat ∧
        calls (trace r)
          `prefix_of` disk_calls (instance_id inst) moid duration
                        c_rb c_rr c_wb c_wr).
Proof.
  cbn. answer; [destruct (truthy moid) eqn:Hmoid; cbn|].
  - answer; [answer; [answer; [answer; [answer; [answer; [answer; [answer
      |]|]|]|]|]|]|].
    + left. exists moid, c, m, c0, m0, c1, m1, c2, m2. split_and!; [done| |].
      * rewrite (run_for_each_yield ops _ (disk_pair m m0 m1 m2)); [done|].
        intros d. apply disk_body.
      * rewrite (run_for_each_yield ops _ (disk_pair m m0 m1 m2));
          [|intros d; apply disk_body].
        cbn. unfold disk_trace. by rewrite (left_id_L ∅ (∪)).
    + right. exists e, moid, c, c0, c1, c2.
      split_and!; [done | done | cbn; lia | eexists; reflexivity].
    + right. exists e, moid, c, c0, c1, 0.
      split_and!; [done | done | cbn; lia | eexists; reflexivity].
    + right. exists e, moid, c, c0, c1, 0.
      split_and!; [done | done | cbn; lia | eexists; reflexivity].
    + right. exists e, moid, c, c0, 0, 0.
      split_and!; [done | done | cbn; lia | eexists; reflexivity].
    + right. exists e, moid, c, c0, 0, 0.
      split_and!; [done | done | cbn; lia | eexists; reflexivity].
    + right. exists e, moid, c, 0, 0, 0.
      split_and!; [done | done | cbn; lia | eexists; reflexivity].
    + right. exists e, moid, c, 0, 0, 0.
      split_and!; [done | done | cbn; lia | eexists; reflexivity].
    + right. exists e, moid, 0, 0, 0, 0.
      split_and!; [done | done | cbn; lia | eexists; reflexivity].
  - right. eexists _, moid, 0, 0, 0, 0.
    split_and!; [done | done | cbn; lia | eexists; reflexivity].
  - right. exists e, PyNone, 0, 0, 0, 0.
    split_and!; [done | done | cbn; lia | eexists; reflexivity].
Qed.

(** The first [next] on either generator: when it yields, what is left
    of the generator has no call to make. *)
Lemma next_inspect_vnic_rates (inst : instance) (duration : pyval) (s : S) :
  match next ops (inspect_vnic_rates inst duration) s with
  | Yielded _ rest _ cs =>
      call_free rest = true ∧ length (device_maps cs) = 2%nat
      ∧ yields cs = []
  | StopIteration _ cs => length (device_maps cs) = 2%nat ∧ yields cs = []
  | Failed _ _ cs => (length (device_maps cs) < 2)%nat ∧ yields cs = []
  end.
Proof.
  cbn. answer; [destruct (truthy moid) eqn:Hmoid; cbn|];
    try (split; [lia|done]).
  answer; [answer; [answer; [answer|]|]|]; try (split; [lia|done]).
  rewrite (next_for_each_yield ops _ (vnic_pair m m0));
    [|intros d; apply vnic_body].
  destruct (elements _) as [|d ds]; cbn; [done|].
  split; [|done].
  apply (call_free_for_each _ (vnic_pair m m0)). intros x. apply vnic_body.
Qed.

Lemma next_inspect_disk_rates (inst : instance) (duration : pyval) (s : S) :
  match next ops (inspect_disk_rates inst duration) s with
  | Yielded _ rest _ cs =>
      call_free rest = true ∧ length (device_maps cs) = 4%nat
      ∧ yields cs = []
  | StopIteration _ cs => length (device_maps cs) = 4%nat ∧ yields cs = []
  | Failed _ _ cs => (length (device_maps cs) < 4)%nat ∧ yields cs = []
  end.
Proof.
  cbn. answer; [destruct (truthy moid) eqn:Hmoid; cbn|];
    try (split; [lia|done]).
  answer; [answer; [answer; [answer; [answer; [answer; [answer; [answer
    |]|]|]|]|]|]|]; try (split; [lia|done]).
  rewrite (next_for_each_yield ops _ (disk_pair m m0 m1 m2));
    [|intros d; apply disk_body].
  destruct (elements _) as [|d ds]; cbn; [done|].
  split; [|done].
  apply (call_free_for_each _ (disk_pair m m0 m1 m2)).
  intros x. apply disk_body.
Qed.
End FanOut.

(** ** The aggregate inspections *)

Section Aggregate.
Context {S : Type} (ops : VsphereOperations S).

(** The CPU record is made of the quotient Python computes for the raw
    value by the integer 100. *)
Lemma inspect_cpu_util_raw (inst : instance) (duration : pyval) (s : S) v :
  let r := run ops (inspect_cpu_util inst duration) s in
  aggregate_values (trace r) = [v] →
  final r = match py_div v (PyInt 100) with
            | Returned q => Returned {| util := q |}
            | Raised e => Raised e
            end.
Proof.
  cbn. answer; [destruct (is_None moid); cbn|]; try done.
  answer; [answer|]; try done.
  intros [= ->]. by destruct (py_div v (PyInt 100)).
Qed.

Lemma inspect_cpu_util_float (inst : instance) (duration : pyval) (s : S) f :
  let r := run ops (inspect_cpu_util inst duration) s in
  aggregate_values (trace r) = [PyFloat f] →
  final r = Returned {| util := PyFloat (PrimFloat.div f 100%float) |}.
Proof. intros r H. apply inspect_cpu_util_raw in H. exact H. Qed.

Lemma inspect_cpu_util_int (inst : instance) (duration : pyval) (s : S) z :
  let r := run ops (inspect_cpu_util inst duration) s in
  aggregate_values (trace r) = [PyInt z] →
  final r = Returned {| util := PyInt (z / 100) |}.
Proof. intros r H. apply inspect_cpu_util_raw in H. exact H. Qed.

(** The memory record is made of the quotient Python computes for the
    raw value by [units.Ki]. *)
Lemma inspect_memory_usage_raw (inst : instance) (duration : pyval) (s : S) v :
  let r := run ops (inspect_memory_usage inst duration) s in
  aggregate_values (trace r) = [v] →
  final r = match py_div v units.Ki with
            | Returned q => Returned {| usage := q |}
            | Raised e => Raised e
            end.
Proof.
  cbn. answer; [destruct (is_None moid); cbn|]; try done.
  answer; [answer|]; try done.
  intros [= ->]. by destruct (py_div v units.Ki).
Qed.

Lemma inspect_memory_usage_float (inst : instance) (duration : pyval) (s : S) f :
  let r := run ops (inspect_memory_usage inst duration) s in
  aggregate_values (trace r) = [PyFloat f] →
  final r = Returned {| usage := PyFloat (PrimFloat.div f 1024%float) |}.
Proof. intros r H. apply inspect_memory_usage_raw in H. exact H. Qed.

Lemma inspect_memory_usage_int (inst : instance) (duration : pyval) (s : S) z :
  let r := run ops (inspect_memory_usage inst duration) s in
  aggregate_values (trace r) = [PyInt z] →
  final r = Returned {| usage := PyInt (z / 1024) |}.
Proof. intros r H. apply inspect_memory_usage_raw in H. exact H. Qed.
End Aggregate.

(** A float raw value keeps its fraction: 1234.0 gives 12.34 and 4567.0
    gives 45.67. *)
Example inspect_cpu_util_1234_float :
  final (run (provider (PyFloat 1234) ∅) (inspect_cpu_util (vm "vm-1") PyNone) 0%nat)
  = Returned {| util := PyFloat 0x1.8ae147ae147aep+3 |}
  ∧ final (run (provider (PyFloat 4567) ∅) (inspect_cpu_util (vm "vm-1") PyNone) 0%nat)
    = Returned {| util := PyFloat 0x1.6d5c28f5c28f6p+5 |}.
Proof. split; reflexivity. Qed.

(** C1: [inspect_cpu_util] on the integer raw value 1234 (the code's own
    comment has the API return longs, 1234 for 12.34%): [cpu_util / 100]
    is floor division in Python 2, and the record holds the integer 12,
    not 12.34. *)
Theorem inspect_cpu_util_raw_1234 :
  final (run (provider (PyInt 1234) ∅) (inspect_cpu_util (vm "vm-1") PyNone) 0%nat)
  = Returned {| util := PyInt 12 |}.
Proof. reflexivity. Qed.

(** C4: [inspect_memory_usage] on the integer raw value 1536 KB:
    [memory / units.Ki] is floor division in Python 2, and the record
    holds the integer 1, not 1.5 MB. *)
Theorem inspect_memory_usage_raw_1536 :
  final (run (provider (PyInt 1536) ∅) (inspect_memory_usage (vm "vm-1") PyNone) 0%nat)
  = Returned {| usage := PyInt 1 |}.
Proof. reflexivity. Qed.

(** ** The fan-out inspections *)

Lemma vnic_pair_names (rx tx : gmap string pynum) (l : list string) :
  (name ∘ fst) <$> (vnic_pair rx tx <$> l) = l.
Proof. induction l as [|d l IH]; [reflexivity|]. cbn. by rewrite IH. Qed.

Lemma disk_pair_devices (rb rr wb wr : gmap string pynum) (l : list string) :
  (device ∘ fst) <$> (disk_pair rb rr wb wr <$> l) = l.
Proof. induction l as [|d l IH]; [reflexivity|]. cbn. by rewrite IH. Qed.

Section FanOutYields.
Context {S : Type} (ops : VsphereOperations S).

(** Once the two queries have answered [rx] and [tx], what the network
    inspection yields is settled. *)
Lemma vnic_yields (inst : instance) (duration : pyval) (s : S) rx tx :
  let r := run ops (inspect_vnic_rates inst duration) s in
  device_maps (trace r) = [rx; tx] →
  yields (trace r) = vnic_pair rx tx <$> elements (dom rx ∪ dom tx).
Proof.
  intros r Hmaps.
  destruct (run_inspect_vnic_rates ops inst duration s)
    as [(moid & c_rx & rx' & c_tx & tx' & _ & _ & Htr)
       |(e & moid & c_rx & c_tx & _ & _ & Hlen & _)]; fold r in Htr || fold r in Hlen.
  - rewrite Htr in Hmaps |- *. unfold vnic_trace in *. cbn in Hmaps |- *.
    rewrite device_maps_EvYield in Hmaps. injection Hmaps as -> ->.
    apply yields_EvYield.
  - rewrite Hmaps in Hlen. cbn in Hlen. lia.
Qed.

(** Once the four queries have answered, what the disk inspection yields
    is settled. *)
Lemma disk_yields (inst : instance) (duration : pyval) (s : S) rb rr wb wr :
  let r := run ops (inspect_disk_rates inst duration) s in
  device_maps (trace r) = [rb; rr; wb; wr] →
  yields (trace r)
  = disk_pair rb rr wb wr <$> elements (dom rb ∪ dom rr ∪ dom wb ∪ dom wr).
Proof.
  intros r Hmaps.
  destruct (run_inspect_disk_rates ops inst duration s)
    as [(moid & c1 & rb' & c2 & rr' & c3 & wb' & c4 & wr' & _ & _ & Htr)
       |(e & moid & c1 & c2 & c3 & c4 & _ & _ & Hlen & _)];
    fold r in Htr || fold r in Hlen.
  - rewrite Htr in Hmaps |- *. unfold disk_trace in *. cbn in Hmaps |- *.
    rewrite device_maps_EvYield in Hmaps. injection Hmaps as -> -> -> ->.
    apply yields_EvYield.
  - rewrite Hmaps in Hlen. cbn in Hlen. lia.
Qed.
End FanOutYields.

Example scenario_vnic_yields :
  yields (trace (run (provider (PyInt 0) scenario_net)
                   (inspect_vnic_rates (vm "vm-2") PyNone) 0%nat))
  ≡ₚ [({| name := "nic-0"; mac := PyNone; fref := PyNone; parameters := PyNone |},
       {| rx_bytes_rate := PyInt 102400; tx_bytes_rate := PyInt 51200 |});
      ({| name := "nic-1"; mac := PyNone; fref := PyNone; parameters := PyNone |},
       {| rx_bytes_rate := PyInt 0; tx_bytes_rate := PyInt 20480 |})].
Proof. vm_compute. apply perm_swap. Qed.

Example scenario_disk_yields :
  yields (trace (run (provider (PyInt 0) scenario_disk)
                   (inspect_disk_rates (vm "vm-3") PyNone) 0%nat))
  ≡ₚ [({| device := "sda" |},
       {| read_bytes_rate := PyInt 10240; read_requests_rate := PyFloat 2.5;
          write_bytes_rate := PyInt 0; write_requests_rate := PyInt 0 |});
      ({| device := "sdb" |},
       {| read_bytes_rate := PyInt 0; read_requests_rate := PyInt 0;
          write_bytes_rate := PyFloat 512; write_requests_rate := PyInt 7 |})].
Proof. vm_compute. reflexivity. Qed.

(** C2: in a network (resp. disk) inspection whose two (resp. four)
    per-device queries returned the maps [rx], [tx] (resp. [rb], [rr],
    [wb], [wr]), the pairs yielded name every device id of the union of
    the maps' key sets exactly once, and no other; a field whose counter
    has no entry for the device holds 0. *)
Theorem fan_out_device_union {S} (ops : VsphereOperations S)
    (inst : instance) (duration : pyval) (s : S) :
  (∀ rx tx,
     device_maps (trace (run ops (inspect_vnic_rates inst duration) s))
     = [rx; tx] →
     vnic_union rx tx
       (yields (trace (run ops (inspect_vnic_rates inst duration) s))))
  ∧ (∀ rb rr wb wr,
       device_maps (trace (run ops (inspect_disk_rates inst duration) s))
       = [rb; rr; wb; wr] →
       disk_union rb rr wb wr
         (yields (trace (run ops (inspect_disk_rates inst duration) s)))).
Proof.
  split.
  - intros rx tx Hmaps. rewrite (vnic_yields ops inst duration s rx tx Hmaps).
    unfold vnic_union. rewrite vnic_pair_names. split_and!.
    + apply NoDup_elements.
    + intros d. apply elem_of_elements.
    + intros i st Hin. apply list_elem_of_fmap in Hin as (d & [= -> ->] & _).
      cbn. split; intros ->; reflexivity.
  - intros rb rr wb wr Hmaps.
    rewrite (disk_yields ops inst duration s rb rr wb wr Hmaps).
    unfold disk_union. rewrite disk_pair_devices. split_and!.
    + apply NoDup_elements.
    + intros d. apply elem_of_elements.
    + intros k st Hin. apply list_elem_of_fmap in Hin as (d & [= -> ->] & _).
      cbn. split_and!; intros ->; reflexivity.
Qed.

Lemma fan_out_device_union_witness :
  device_maps (trace (run scenario_ops (inspect_vnic_rates (vm "vm-2") PyNone) 0%nat))
  = [scenario_rx; scenario_tx]
  ∧ vnic_union scenario_rx scenario_tx
      (yields (trace (run scenario_ops (inspect_vnic_rates (vm "vm-2") PyNone) 0%nat)))
  ∧ device_maps (trace (run scenario_ops (inspect_disk_rates (vm "vm-2") PyNone) 0%nat))
    = [scenario_rb; scenario_rr; scenario_wb; scenario_wr]
  ∧ disk_union scenario_rb scenario_rr scenario_wb scenario_wr
      (yields (trace (run scenario_ops (inspect_disk_rates (vm "vm-2") PyNone) 0%nat))).
Proof.
  destruct (fan_out_device_union scenario_ops (vm "vm-2") PyNone 0%nat)
    as [Hvnic Hdisk].
  split_and!.
  - vm_compute. reflexivity.
  - apply Hvnic. vm_compute. reflexivity.
  - vm_compute. reflexivity.
  - apply Hdisk. vm_compute. reflexivity.
Defined.

(** C5: for every raw rate [v] that a per-device map returned holds for
    a device, the inspection yields the pair of that device and its
    field for that counter is [v] times 1024 when the counter is a byte
    rate (network rx/tx, disk read/write) and [v] itself when it is a
    request rate (disk read/write requests); no pair yielded holds
    anything else for such a device. *)
Theorem fan_out_unit_conversion {S} (ops : VsphereOperations S)
    (inst : instance) (duration : pyval) (s : S) :
  (∀ rx tx,
     device_maps (trace (run ops (inspect_vnic_rates inst duration) s))
     = [rx; tx] →
     vnic_converted rx tx
       (yields (trace (run ops (inspect_vnic_rates inst duration) s))))
  ∧ (∀ rb rr wb wr,
       device_maps (trace (run ops (inspect_disk_rates inst duration) s))
       = [rb; rr; wb; wr] →
       disk_converted rb rr wb wr
         (yields (trace (run ops (inspect_disk_rates inst duration) s)))).
Proof.
  split.
  - intros rx tx Hmaps. rewrite (vnic_yields ops inst duration s rx tx Hmaps).
    assert (Hpair : ∀ d, d ∈ dom rx ∪ dom tx →
              vnic_pair rx tx d
              ∈ vnic_pair rx tx <$> elements (dom rx ∪ dom tx)).
    { intros d Hd. apply list_elem_of_fmap. exists d.
      split; [done|]. by apply elem_of_elements. }
    split_and!.
    + intros d v Hv. eexists _, _. split; [apply (Hpair d)|].
      * apply elem_of_union_l, elem_of_dom. by exists v.
      * cbn. by rewrite Hv.
    + intros d v Hv. eexists _, _. split; [apply (Hpair d)|].
      * apply elem_of_union_r, elem_of_dom. by exists v.
      * cbn. by rewrite Hv.
    + intros i st Hin. apply list_elem_of_fmap in Hin as (d & [= -> ->] & _).
      cbn. split; intros v ->; reflexivity.
  - intros rb rr wb wr Hmaps.
    rewrite (disk_yields ops inst duration s rb rr wb wr Hmaps).
    assert (Hpair : ∀ d, d ∈ dom rb ∪ dom rr ∪ dom wb ∪ dom wr →
              disk_pair rb rr wb wr d
              ∈ disk_pair rb rr wb wr
                  <$> elements (dom rb ∪ dom rr ∪ dom wb ∪ dom wr)).
    { intros d Hd. apply list_elem_of_fmap. exists d.
      split; [done|]. by apply elem_of_elements. }
    split_and!.
    + intros d v Hv. eexists _, _. split; [apply (Hpair d)|].
      * do 3 apply elem_of_union_l. apply elem_of_dom. by exists v.
      * cbn. by rewrite Hv.
    + intros d v Hv. eexists _, _. split; [apply (Hpair d)|].
      * do 2 apply elem_of_union_l. apply elem_of_union_r, elem_of_dom.
        by exists v.
      * cbn. by rewrite Hv.
    + intros d v Hv. eexists _, _. split; [apply (Hpair d)|].
      * apply elem_of_union_l, elem_of_union_r, elem_of_dom. by exists v.
      * cbn. by rewrite Hv.
    + intros d v Hv. eexists _, _. split; [apply (Hpair d)|].
      * apply elem_of_union_r, elem_of_dom. by exists v.
      * cbn. by rewrite Hv.
    + intros k st Hin. apply list_elem_of_fmap in Hin as (d & [= -> ->] & _).
      cbn. split_and!; intros v ->; reflexivity.
Qed.

Lemma fan_out_unit_conversion_witness :
  device_maps (trace (run scenario_ops (inspect_vnic_rates (vm "vm-2") PyNone) 0%nat))
  = [scenario_rx; scenario_tx]
  ∧ vnic_converted scenario_rx scenario_tx
      (yields (trace (run scenario_ops (inspect_vnic_rates (vm "vm-2") PyNone) 0%nat)))
  ∧ device_maps (trace (run scenario_ops (inspect_disk_rates (vm "vm-2") PyNone) 0%nat))
    = [scenario_rb; scenario_rr; scenario_wb; scenario_wr]
  ∧ disk_converted scenario_rb scenario_rr scenario_wb scenario_wr
      (yields (trace (run scenario_ops (inspect_disk_rates (vm "vm-2") PyNone) 0%nat))).
Proof.
  destruct (fan_out_unit_conversion scenario_ops (vm "vm-2") PyNone 0%nat)
    as [Hvnic Hdisk].
  split_and!.
  - vm_compute. reflexivity.
  - apply Hvnic. vm_compute. reflexivity.
  - vm_compute. reflexivity.
  - apply Hdisk. vm_compute. reflexivity.
Defined.

(** The conversions at work: 10 KB/s are 10240 B/s, 0.5 KB/s are 512.0
    B/s. *)
Example kb_to_bytes_10 :
  kb_to_bytes (PyInt 10) = PyInt 10240
  ∧ kb_to_bytes (PyFloat 0.5) = PyFloat 512.
Proof. split; reflexivity. Qed.

(** *** Where a failing run stopped *)

Lemma py_div_100 (v : pynum) : ∃ q, py_div v (PyInt 100) = Returned q.
Proof. destruct v as [z|f]; eexists; reflexivity. Qed.

Lemma py_div_Ki (v : pynum) : ∃ q, py_div v units.Ki = Returned q.
Proof. destruct v as [z|f]; eexists; reflexivity. Qed.

Section Failures.
Context {S : Type} (ops : VsphereOperations S).

Lemma inspect_cpu_util_failure (inst : instance) (duration : pyval) (s : S) :
  raises_only_not_found (instance_id inst) is_None
    (run ops (inspect_cpu_util inst duration) s).
Proof.
  unfold raises_only_not_found. cbn.
  answer; [destruct (is_None moid) eqn:Hmoid; cbn|].
  - left. by exists moid.
  - answer; [answer|]; [|by right..].
    destruct (py_div_100 v) as [q ->]. done.
  - by right.
Qed.

Lemma inspect_memory_usage_failure (inst : instance) (duration : pyval) (s : S) :
  raises_only_not_found (instance_id inst) is_None
    (run ops (inspect_memory_usage inst duration) s).
Proof.
  unfold raises_only_not_found. cbn.
  answer; [destruct (is_None moid) eqn:Hmoid; cbn|].
  - left. by exists moid.
  - answer; [answer|]; [|by right..].
    destruct (py_div_Ki v) as [q ->]. done.
  - by right.
Qed.

Lemma inspect_vnic_rates_failure (inst : instance) (duration : pyval) (s : S) :
  raises_only_not_found (instance_id inst) (λ moid, negb (truthy moid))
    (run ops (inspect_vnic_rates inst duration) s).
Proof.
  unfold raises_only_not_found. cbn.
  answer; [destruct (truthy moid) eqn:Hmoid; cbn|].
  - answer; [answer; [answer; [answer|]|]|]; [|by right..].
    rewrite (run_for_each_yield ops _ (vnic_pair m m0)); [done|].
    intros d. apply vnic_body.
  - left. exists moid. by rewrite Hmoid.
  - by right.
Qed.

Lemma inspect_disk_rates_failure (inst : instance) (duration : pyval) (s : S) :
  raises_only_not_found (instance_id inst) (λ moid, negb (truthy moid))
    (run ops (inspect_disk_rates inst duration) s).
Proof.
  unfold raises_only_not_found. cbn.
  answer; [destruct (truthy moid) eqn:Hmoid; cbn|].
  - answer; [answer; [answer; [answer; [answer; [answer; [answer; [answer
      |]|]|]|]|]|]|]; [|by right..].
    rewrite (run_for_each_yield ops _ (disk_pair m m0 m1 m2)); [done|].
    intros d. apply disk_body.
  - left. exists moid. by rewrite Hmoid.
  - by right.
Qed.
End Failures.

Lemma calls_vnic_trace vm_id moid duration c_rx rx c_tx tx :
  calls (vnic_trace vm_id moid duration c_rx rx c_tx tx)
  = vnic_calls vm_id moid duration c_rx c_tx
  ∧ resolved_counters (vnic_trace vm_id moid duration c_rx rx c_tx tx)
    = [(VC_NETWORK_RX_COUNTER, c_rx); (VC_NETWORK_TX_COUNTER, c_tx)].
Proof.
  unfold vnic_trace, vnic_calls. cbn.
  generalize (vnic_pair rx tx <$> elements (dom rx ∪ dom tx)).
  intros ys. rewrite calls_EvYield. split; [done|].
  induction ys as [|y ys IH]; [done|exact IH].
Qed.

Lemma calls_disk_trace vm_id moid duration c_rb rb c_rr rr c_wb wb c_wr wr :
  calls (disk_trace vm_id moid duration c_rb rb c_rr rr c_wb wb c_wr wr)
  = disk_calls vm_id moid duration c_rb c_rr c_wb c_wr
  ∧ resolved_counters
      (disk_trace vm_id moid duration c_rb rb c_rr rr c_wb wb c_wr wr)
    = [(VC_DISK_READ_RATE_CNTR, c_rb);
       (VC_DISK_READ_REQUESTS_RATE_CNTR, c_rr);
       (VC_DISK_WRITE_RATE_CNTR, c_wb);
       (VC_DISK_WRITE_REQUESTS_RATE_CNTR, c_wr)].
Proof.
  unfold disk_trace, disk_calls. cbn.
  generalize (disk_pair rb rr wb wr
                <$> elements (dom rb ∪ dom rr ∪ dom wb ∪ dom wr)).
  intros ys. rewrite calls_EvYield. split; [done|].
  induction ys as [|y ys IH]; [done|exact IH].
Qed.

(** C7: the calls of a network inspection are the first ones of the
    sequence: entity, rx counter, rx query, tx counter, tx query, each
    query made with the id its counter resolved to.  They are the whole
    sequence, one query per counter, unless the run stopped where the
    code lets it stop: at the not-found check, on a false answer of the
    entity resolver, or at a call on the collaborator that raised, which
    is then the last call made.  The same for a disk inspection and read
    bytes, read requests, write bytes, write requests. *)
Theorem fan_out_call_order {S} (ops : VsphereOperations S)
    (inst : instance) (duration : pyval) (s : S) :
  (∃ moid c_rx c_tx,
      let r := run ops (inspect_vnic_rates inst duration) s in
      let expected := vnic_calls (instance_id inst) moid duration c_rx c_tx in
      calls (trace r) `prefix_of` expected
      ∧ ((final r = Returned tt
          ∧ calls (trace r) = expected
          ∧ resolved_counters (trace r)
            = [(VC_NETWORK_RX_COUNTER, c_rx); (VC_NETWORK_TX_COUNTER, c_tx)])
         ∨ (∃ falsy, truthy falsy = false
                     ∧ r = not_found (instance_id inst) falsy (final_state r))
         ∨ (∃ e, final r = Raised e ∧ collaborator_raised e (trace r))))
  ∧ (∃ moid c_rb c_rr c_wb c_wr,
        let r := run ops (inspect_disk_rates inst duration) s in
        let expected :=
          disk_calls (instance_id inst) moid duration c_rb c_rr c_wb c_wr in
        calls (trace r) `prefix_of` expected
        ∧ ((final r = Returned tt
            ∧ calls (trace r) = expected
            ∧ resolved_counters (trace r)
              = [(VC_DISK_READ_RATE_CNTR, c_rb);
                 (VC_DISK_READ_REQUESTS_RATE_CNTR, c_rr);
                 (VC_DISK_WRITE_RATE_CNTR, c_wb);
                 (VC_DISK_WRITE_REQUESTS_RATE_CNTR, c_wr)])
           ∨ (∃ falsy, truthy falsy = false
                       ∧ r = not_found (instance_id inst) falsy (final_state r))
           ∨ (∃ e, final r = Raised e ∧ collaborator_raised e (trace r)))).
Proof.
  split.
  - pose proof (inspect_vnic_rates_failure ops inst duration s) as Hfail.
    unfold raises_only_not_found in Hfail.
    destruct (run_inspect_vnic_rates ops inst duration s)
      as [(moid & c_rx & rx & c_tx & tx & _ & Hfin & Htr)
         |(e & moid & c_rx & c_tx & Hfin & _ & _ & Hpre)];
      exists moid, c_rx, c_tx; cbn zeta.
    + rewrite Htr.
      destruct (calls_vnic_trace (instance_id inst) moid duration c_rx rx c_tx tx)
        as [-> ->].
      split; [done|]. left. done.
    + split; [done|]. right. rewrite Hfin in Hfail.
      destruct Hfail as [(falsy & Hfalsy & Hrun)|Hraised].
      * left. exists falsy. split; [|done]. by destruct (truthy falsy).
      * right. by exists e.
  - pose proof (inspect_disk_rates_failure ops inst duration s) as Hfail.
    unfold raises_only_not_found in Hfail.
    destruct (run_inspect_disk_rates ops inst duration s)
      as [(moid & c1 & rb & c2 & rr & c3 & wb & c4 & wr & _ & Hfin & Htr)
         |(e & moid & c1 & c2 & c3 & c4 & Hfin & _ & _ & Hpre)];
      exists moid, c1, c2, c3, c4; cbn zeta.
    + rewrite Htr.
      destruct (calls_disk_trace (instance_id inst) moid duration
                  c1 rb c2 rr c3 wb c4 wr) as [-> ->].
      split; [done|]. left. done.
    + split; [done|]. right. rewrite Hfin in Hfail.
      destruct Hfail as [(falsy & Hfalsy & Hrun)|Hraised].
      * left. exists falsy. split; [|done]. by destruct (truthy falsy).
      * right. by exists e.
Qed.

(** The order at work in the scenario. *)
Example scenario_call_order :
  calls (trace (run scenario_ops (inspect_disk_rates (vm "vm-2") PyNone) 0%nat))
  = disk_calls "vm-2" (PyStr "vm-2-moid") PyNone 5 6 7 8
  ∧ calls (trace (run scenario_ops (inspect_vnic_rates (vm "vm-2") PyNone) 0%nat))
    = vnic_calls "vm-2" (PyStr "vm-2-moid") PyNone 3 4.
Proof. split; vm_compute; reflexivity. Qed.

(** C8: every interface [inspect_vnic_rates] yields is named by a device
    id that is a key of one of the per-device maps returned, and its
    [mac], [fref] and [parameters] are [None]. *)
Theorem vnic_interface_descriptor {S} (ops : VsphereOperations S)
    (inst : instance) (duration : pyval) (s : S) :
  let r := run ops (inspect_vnic_rates inst duration) s in
  Forall (λ y : Interface * InterfaceRateStats,
            (∃ m, m ∈ device_maps (trace r) ∧ is_Some (m !! name y.1))
            ∧ mac y.1 = PyNone ∧ fref y.1 = PyNone ∧ parameters y.1 = PyNone)
    (yields (trace r)).
Proof.
  intros r.
  destruct (run_inspect_vnic_rates ops inst duration s)
    as [(moid & c_rx & rx & c_tx & tx & _ & _ & Htr)
       |(e & moid & c_rx & c_tx & _ & Hys & _ & _)]; fold r in Htr || fold r in Hys.
  - rewrite Htr. unfold vnic_trace. cbn.
    rewrite device_maps_EvYield, yields_EvYield.
    apply Forall_fmap, Forall_forall. intros d Hd. cbn.
    apply elem_of_elements, elem_of_union in Hd.
    split; [|done].
    destruct Hd as [Hd|Hd]; apply elem_of_dom in Hd.
    + exists rx. split; [set_solver|done].
    + exists tx. split; [set_solver|done].
  - rewrite Hys. constructor.
Qed.

(** C9: on the first [next] of either generator, all the counter
    resolutions and per-device queries have been made (two maps for the
    network, four for the disks) when a pair is yielded, and what is left
    of the generator makes no call; when that [next] raises, nothing has
    been yielded.  In a whole run, either nothing is yielded or no call
    on the collaborator raised. *)
Theorem fan_out_queries_before_yields {S} (ops : VsphereOperations S)
    (inst : instance) (duration : pyval) (s : S) :
  match next ops (inspect_vnic_rates inst duration) s with
  | Yielded _ rest _ cs =>
      call_free rest = true ∧ length (device_maps cs) = 2%nat ∧ yields cs = []
  | StopIteration _ cs => length (device_maps cs) = 2%nat ∧ yields cs = []
  | Failed _ _ cs => (length (device_maps cs) < 2)%nat ∧ yields cs = []
  end
  ∧ match next ops (inspect_disk_rates inst duration) s with
    | Yielded _ rest _ cs =>
        call_free rest = true ∧ length (device_maps cs) = 4%nat ∧ yields cs = []
    | StopIteration _ cs => length (device_maps cs) = 4%nat ∧ yields cs = []
    | Failed _ _ cs => (length (device_maps cs) < 4)%nat ∧ yields cs = []
    end
  ∧ (let tr := trace (run ops (inspect_vnic_rates inst duration) s) in
     yields tr = []
     ∨ forallb (λ ev, negb (raised_by_collaborator ev)) tr = true)
  ∧ (let tr := trace (run ops (inspect_disk_rates inst duration) s) in
     yields tr = []
     ∨ forallb (λ ev, negb (raised_by_collaborator ev)) tr = true).
Proof.
  split_and!.
  - apply next_inspect_vnic_rates.
  - apply next_inspect_disk_rates.
  - destruct (run_inspect_vnic_rates ops inst duration s)
      as [(moid & c_rx & rx & c_tx & tx & _ & _ & Htr)
         |(e & moid & c_rx & c_tx & _ & Hys & _ & _)]; cbn zeta.
    + right. rewrite Htr. unfold vnic_trace. cbn. apply raised_EvYield.
    + by left.
  - destruct (run_inspect_disk_rates ops inst duration s)
      as [(moid & c1 & rb & c2 & rr & c3 & wb & c4 & wr & _ & _ & Htr)
         |(e & moid & c1 & c2 & c3 & c4 & _ & Hys & _ & _)]; cbn zeta.
    + right. rewrite Htr. unfold disk_trace. cbn. apply raised_EvYield.
    + by left.
Qed.

Example failing_tx_next :
  next failing_tx (inspect_vnic_rates (vm "vm-2") PyNone) 0%nat
  = Failed (CollaboratorError "transport") 5%nat
      [EvGetVmMoid "vm-2" (Returned (PyStr "vm-2-moid"));
       EvGetPerfCounterId VC_NETWORK_RX_COUNTER (Returned 3);
       EvQueryVmDeviceStats (PyStr "vm-2-moid") 3 PyNone (Returned scenario_rx);
       EvGetPerfCounterId VC_NETWORK_TX_COUNTER (Returned 4);
       EvQueryVmDeviceStats (PyStr "vm-2-moid") 4 PyNone
         (Raised (CollaboratorError "transport"))].
Proof. vm_compute. reflexivity. Qed.

(** ** Not found *)

(** C3: when the entity resolver answers [None] for the instance, each of
    the four inspections raises [InstanceNotFoundException] with the
    message built from the instance id, having made that one call and no
    other; for the two generators this is how their first [next] ends (and
    so how a run that exhausts them ends). *)
Theorem not_found_fails_without_query {S} (ops : VsphereOperations S)
    (inst : instance) (duration : pyval) (s : S) :
  (get_vm_moid ops (instance_id inst) s).1 = Returned PyNone →
  let s1 := (get_vm_moid ops (instance_id inst) s).2 in
  let e := InstanceNotFoundException
             ("VM " +:+ instance_id inst +:+ " not found in VMware Vsphere") in
  run ops (inspect_cpu_util inst duration) s
  = {| final := Raised e; final_state := s1;
       trace := [EvGetVmMoid (instance_id inst) (Returned PyNone)] |}
  ∧ run ops (inspect_memory_usage inst duration) s
    = {| final := Raised e; final_state := s1;
         trace := [EvGetVmMoid (instance_id inst) (Returned PyNone)] |}
  ∧ next ops (inspect_vnic_rates inst duration) s
    = Failed e s1 [EvGetVmMoid (instance_id inst) (Returned PyNone)]
  ∧ next ops (inspect_disk_rates inst duration) s
    = Failed e s1 [EvGetVmMoid (instance_id inst) (Returned PyNone)]
  ∧ run ops (inspect_vnic_rates inst duration) s
    = {| final := Raised e; final_state := s1;
         trace := [EvGetVmMoid (instance_id inst) (Returned PyNone)] |}
  ∧ run ops (inspect_disk_rates inst duration) s
    = {| final := Raised e; final_state := s1;
         trace := [EvGetVmMoid (instance_id inst) (Returned PyNone)] |}.
Proof.
  intros Hmoid. cbn.
  destruct (get_vm_moid ops (instance_id inst) s) as [r s1] eqn:E.
  cbn in Hmoid. subst r. cbn. done.
Qed.

Lemma not_found_fails_without_query_witness :
  (get_vm_moid (stub_ops absent catalog (λ _ _ _, Returned (PyInt 0))
                  (λ _ _ _, Returned ∅)) "vm-404" 0%nat).1
  = Returned PyNone
  ∧ run (stub_ops absent catalog (λ _ _ _, Returned (PyInt 0))
           (λ _ _ _, Returned ∅))
      (inspect_cpu_util (vm "vm-404") PyNone) 0%nat
    = {| final := Raised (InstanceNotFoundException
                            "VM vm-404 not found in VMware Vsphere");
         final_state := 1%nat;
         trace := [EvGetVmMoid "vm-404" (Returned PyNone)] |}
  ∧ next (stub_ops absent catalog (λ _ _ _, Returned (PyInt 0))
            (λ _ _ _, Returned ∅))
      (inspect_disk_rates (vm "vm-404") PyNone) 0%nat
    = Failed (InstanceNotFoundException "VM vm-404 not found in VMware Vsphere")
        1%nat [EvGetVmMoid "vm-404" (Returned PyNone)].
Proof.
  destruct (not_found_fails_without_query
              (stub_ops absent catalog (λ _ _ _, Returned (PyInt 0))
                 (λ _ _ _, Returned ∅))
              (vm "vm-404") PyNone 0%nat)
    as (Hcpu & _ & _ & Hdisk & _); [reflexivity|].
  split_and!; [reflexivity | exact Hcpu | exact Hdisk].
Defined.

(** C10: after the entity resolver has answered [moid], the two aggregate
    inspections raise [InstanceNotFoundException] when [moid] is [None]
    and go on to resolve their counter for every other answer, whereas
    the two fan-out inspections raise it for every answer that is false
    as a truth value and go on for the others; on the empty string the
    former go on and the latter raise. *)
Theorem not_found_check_differs {S} (ops : VsphereOperations S)
    (inst : instance) (duration : pyval) (s : S) (moid : pyval) (s1 : S) :
  get_vm_moid ops (instance_id inst) s = (Returned moid, s1) →
  (if is_None moid
   then run ops (inspect_cpu_util inst duration) s
        = not_found (instance_id inst) moid s1
   else proceeds (instance_id inst) moid VC_AVERAGE_CPU_CONSUMED_CNTR
          (trace (run ops (inspect_cpu_util inst duration) s)))
  ∧ (if is_None moid
     then run ops (inspect_memory_usage inst duration) s
          = not_found (instance_id inst) moid s1
     else proceeds (instance_id inst) moid VC_AVERAGE_MEMORY_CONSUMED_CNTR
            (trace (run ops (inspect_memory_usage inst duration) s)))
  ∧ (if truthy moid
     then proceeds (instance_id inst) moid VC_NETWORK_RX_COUNTER
            (trace (run ops (inspect_vnic_rates inst duration) s))
     else run ops (inspect_vnic_rates inst duration) s
          = not_found (instance_id inst) moid s1)
  ∧ (if truthy moid
     then proceeds (instance_id inst) moid VC_DISK_READ_RATE_CNTR
            (trace (run ops (inspect_disk_rates inst duration) s))
     else run ops (inspect_disk_rates inst duration) s
          = not_found (instance_id inst) moid s1)
  ∧ (moid = PyStr "" →
     proceeds (instance_id inst) moid VC_AVERAGE_CPU_CONSUMED_CNTR
       (trace (run ops (inspect_cpu_util inst duration) s))
     ∧ proceeds (instance_id inst) moid VC_AVERAGE_MEMORY_CONSUMED_CNTR
         (trace (run ops (inspect_memory_usage inst duration) s))
     ∧ run ops (inspect_vnic_rates inst duration) s
       = not_found (instance_id inst) moid s1
     ∧ run ops (inspect_disk_rates inst duration) s
       = not_found (instance_id inst) moid s1).
Proof.
  intros Hmoid.
  assert (Hcpu : is_None moid = false →
                 proceeds (instance_id inst) moid VC_AVERAGE_CPU_CONSUMED_CNTR
                   (trace (run ops (inspect_cpu_util inst duration) s))).
  { intros Hn. cbn. rewrite Hmoid, Hn. cbn. unfold proceeds.
    answer; eexists _, _; reflexivity. }
  assert (Hmem : is_None moid = false →
                 proceeds (instance_id inst) moid VC_AVERAGE_MEMORY_CONSUMED_CNTR
                   (trace (run ops (inspect_memory_usage inst duration) s))).
  { intros Hn. cbn. rewrite Hmoid, Hn. cbn. unfold proceeds.
    answer; eexists _, _; reflexivity. }
  assert (Hvnic : truthy moid = false →
                  run ops (inspect_vnic_rates inst duration) s
                  = not_found (instance_id inst) moid s1).
  { intros Ht. cbn. rewrite Hmoid, Ht. reflexivity. }
  assert (Hdisk : truthy moid = false →
                  run ops (inspect_disk_rates inst duration) s
                  = not_found (instance_id inst) moid s1).
  { intros Ht. cbn. rewrite Hmoid, Ht. reflexivity. }
  split_and!.
  - destruct (is_None moid) eqn:Hn; [|by apply Hcpu].
    cbn. rewrite Hmoid, Hn. reflexivity.
  - destruct (is_None moid) eqn:Hn; [|by apply Hmem].
    cbn. rewrite Hmoid, Hn. reflexivity.
  - destruct (truthy moid) eqn:Ht; [|by apply Hvnic].
    cbn. rewrite Hmoid, Ht. cbn. unfold proceeds.
    answer; eexists _, _; reflexivity.
  - destruct (truthy moid) eqn:Ht; [|by apply Hdisk].
    cbn. rewrite Hmoid, Ht. cbn. unfold proceeds.
    answer; eexists _, _; reflexivity.
  - intros ->. split_and!; [by apply Hcpu | by apply Hmem
                           | by apply Hvnic | by apply Hdisk].
Qed.

Lemma not_found_check_differs_witness :
  get_vm_moid (stub_ops blank catalog (λ _ _ _, Returned (PyFloat 4567))
                 (λ _ _ _, Returned ∅)) "vm-1" 0%nat
  = (Returned (PyStr ""), 1%nat)
  ∧ final (run (stub_ops blank catalog (λ _ _ _, Returned (PyFloat 4567))
                  (λ _ _ _, Returned ∅))
             (inspect_cpu_util (vm "vm-1") PyNone) 0%nat)
    = Returned {| util := PyFloat 0x1.6d5c28f5c28f6p+5 |}
  ∧ run (stub_ops blank catalog (λ _ _ _, Returned (PyFloat 4567))
           (λ _ _ _, Returned ∅))
      (inspect_vnic_rates (vm "vm-1") PyNone) 0%nat
    = not_found "vm-1" (PyStr "") 1%nat.
Proof.
  destruct (not_found_check_differs
              (stub_ops blank catalog (λ _ _ _, Returned (PyFloat 4567))
                 (λ _ _ _, Returned ∅))
              (vm "vm-1") PyNone 0%nat (PyStr "") 1%nat)
    as (_ & _ & Hvnic & _); [reflexivity|].
  split_and!; [reflexivity | reflexivity | exact Hvnic].
Defined.

(** ** Determinism *)

(** C6: against a collaborator whose answers depend on the calls alone,
    a second [inspect_cpu_util] with the same instance and duration, made
    in the state the first one left, ends as the first one did: with the
    same record or the same exception. *)
Theorem inspect_cpu_util_idempotent {S} (ops : VsphereOperations S)
    (inst : instance) (duration : pyval) (s : S) :
  deterministic ops →
  let first := run ops (inspect_cpu_util inst duration) s in
  let second := run ops (inspect_cpu_util inst duration) (final_state first) in
  final second = final first.
Proof.
  intros Hdet first second.
  apply (deterministic_run ops (inspect_cpu_util inst duration) Hdet).
Qed.

Lemma stub_ops_deterministic moid_of counter_of aggregate per_device :
  deterministic (stub_ops moid_of counter_of aggregate per_device).
Proof. repeat split. Qed.

Lemma inspect_cpu_util_idempotent_witness :
  deterministic scenario_ops
  ∧ final_state (run scenario_ops (inspect_cpu_util (vm "vm-1") PyNone) 0%nat)
    = 3%nat
  ∧ final (run scenario_ops (inspect_cpu_util (vm "vm-1") PyNone) 3%nat)
    = final (run scenario_ops (inspect_cpu_util (vm "vm-1") PyNone) 0%nat).
Proof.
  split_and!; [repeat split | reflexivity |].
  apply (inspect_cpu_util_idempotent scenario_ops (vm "vm-1") PyNone 0%nat).
  repeat split.
Defined.

(** * Further properties of the inspector *)

(** ** How an inspection can fail *)

(** X1: an inspection that ends on an exception ends either on its own
    [InstanceNotFoundException], raised right after the entity resolver
    answered [None] (aggregate inspections) or a false value (fan-out
    inspections), or on the very exception the collaborator raised in
    the call made last.  The inspector raises nothing else: no
    [KeyError] from its dictionaries, no arithmetic error from its
    conversions. *)
Theorem inspector_raises_only_not_found {S} (ops : VsphereOperations S)
    (inst : instance) (duration : pyval) (s : S) :
  raises_only_not_found (instance_id inst) is_None
    (run ops (inspect_cpu_util inst duration) s)
  ∧ raises_only_not_found (instance_id inst) is_None
      (run ops (inspect_memory_usage inst duration) s)
  ∧ raises_only_not_found (instance_id inst) (λ moid, negb (truthy moid))
      (run ops (inspect_vnic_rates inst duration) s)
  ∧ raises_only_not_found (instance_id inst) (λ moid, negb (truthy moid))
      (run ops (inspect_disk_rates inst duration) s).
Proof.
  split_and!.
  - apply inspect_cpu_util_failure.
  - apply inspect_memory_usage_failure.
  - apply inspect_vnic_rates_failure.
  - apply inspect_disk_rates_failure.
Qed.

(** The exception of the failing query comes out as it is. *)
Example failing_tx_propagates :
  final (run failing_tx (inspect_vnic_rates (vm "vm-2") PyNone) 0%nat)
  = Raised (CollaboratorError "transport")
  ∧ collaborator_raised (CollaboratorError "transport")
      (trace (run failing_tx (inspect_vnic_rates (vm "vm-2") PyNone) 0%nat)).
Proof. split; vm_compute; reflexivity. Qed.

(** ** The aggregate inspections, call by call *)

(** X2: an aggregate inspection is one round trip.  When it returns, the
    entity resolver answered a moid that is not [None], the counter of
    the inspection (and no other) was resolved, one aggregate query was
    made, with that moid, the id the counter resolved to and the
    caller's duration, and the record holds the quotient of its answer by
    100 (CPU) or 1024 (memory), which never raises.  When it raises, no
    aggregate value was obtained and the calls made are the first ones of
    that sequence. *)
Theorem aggregate_round_trip {S} (ops : VsphereOperations S)
    (inst : instance) (duration : pyval) (s : S) :
  (let r := run ops (inspect_cpu_util inst duration) s in
   (∃ moid cid v q,
       is_None moid = false
       ∧ trace r = aggregate_trace (instance_id inst) moid duration
                     VC_AVERAGE_CPU_CONSUMED_CNTR cid v
       ∧ py_div v (PyInt 100) = Returned q
       ∧ final r = Returned {| util := q |})
   ∨ (∃ e moid cid,
         final r = Raised e ∧ aggregate_values (trace r) = []
         ∧ calls (trace r)
             `prefix_of` aggregate_calls (instance_id inst) moid duration
                           VC_AVERAGE_CPU_CONSUMED_CNTR cid))
  ∧ (let r := run ops (inspect_memory_usage inst duration) s in
     (∃ moid cid v q,
         is_None moid = false
         ∧ trace r = aggregate_trace (instance_id inst) moid duration
                       VC_AVERAGE_MEMORY_CONSUMED_CNTR cid v
         ∧ py_div v units.Ki = Returned q
         ∧ final r = Returned {| usage := q |})
     ∨ (∃ e moid cid,
           final r = Raised e ∧ aggregate_values (trace r) = []
           ∧ calls (trace r)
               `prefix_of` aggregate_calls (instance_id inst) moid duration
                             VC_AVERAGE_MEMORY_CONSUMED_CNTR cid)).
Proof.
  split; cbn.
  - answer; [destruct (is_None moid) eqn:Hmoid; cbn|].
    + right. eexists _, moid, 0. split_and!; [done | done | eexists; reflexivity].
    + answer; [answer|].
      * left. destruct (py_div_100 v) as [q Hq]. exists moid, c, v, q.
        rewrite Hq. done.
      * right. exists e, moid, c. split_and!; [done | done | eexists; reflexivity].
      * right. exists e, moid, 0. split_and!; [done | done | eexists; reflexivity].
    + right. exists e, PyNone, 0. split_and!; [done | done | eexists; reflexivity].
  - answer; [destruct (is_None moid) eqn:Hmoid; cbn|].
    + right. eexists _, moid, 0. split_and!; [done | done | eexists; reflexivity].
    + answer; [answer|].
      * left. destruct (py_div_Ki v) as [q Hq]. exists moid, c, v, q.
        rewrite Hq. done.
      * right. exists e, moid, c. split_and!; [done | done | eexists; reflexivity].
      * right. exists e, moid, 0. split_and!; [done | done | eexists; reflexivity].
    + right. exists e, PyNone, 0. split_and!; [done | done | eexists; reflexivity].
Qed.

(** The first scenario of the specification, call by call, on a float. *)
Example scenario_cpu_round_trip :
  trace (run (provider (PyFloat 4567) ∅) (inspect_cpu_util (vm "vm-1") PyNone) 0%nat)
  = aggregate_trace "vm-1" (PyStr "vm-1-moid") PyNone
      VC_AVERAGE_CPU_CONSUMED_CNTR 1 (PyFloat 4567).
Proof. reflexivity. Qed.

(** X3: a raw aggregate value that is a float is divided as a float: the
    CPU record holds the binary64 quotient of the value by 100.0, the
    memory record its binary64 quotient by 1024.0. *)
Theorem aggregate_float_conversion {S} (ops : VsphereOperations S)
    (inst : instance) (duration : pyval) (s : S) (f : float) :
  (aggregate_values (trace (run ops (inspect_cpu_util inst duration) s))
   = [PyFloat f] →
   final (run ops (inspect_cpu_util inst duration) s)
   = Returned {| util := PyFloat (PrimFloat.div f 100%float) |})
  ∧ (aggregate_values (trace (run ops (inspect_memory_usage inst duration) s))
     = [PyFloat f] →
     final (run ops (inspect_memory_usage inst duration) s)
     = Returned {| usage := PyFloat (PrimFloat.div f 1024%float) |}).
Proof.
  split; intros Hv.
  - apply (inspect_cpu_util_raw ops inst duration s _ Hv).
  - apply (inspect_memory_usage_raw ops inst duration s _ Hv).
Qed.

Lemma aggregate_float_conversion_witness :
  aggregate_values
    (trace (run (provider (PyFloat 1234) ∅) (inspect_cpu_util (vm "vm-1") PyNone) 0%nat))
  = [PyFloat 1234]
  ∧ final (run (provider (PyFloat 1234) ∅) (inspect_cpu_util (vm "vm-1") PyNone) 0%nat)
    = Returned {| util := PyFloat (PrimFloat.div 1234 100) |}
  ∧ aggregate_values
      (trace (run (provider (PyFloat 1234) ∅)
                (inspect_memory_usage (vm "vm-1") PyNone) 0%nat))
    = [PyFloat 1234]
  ∧ final (run (provider (PyFloat 1234) ∅)
             (inspect_memory_usage (vm "vm-1") PyNone) 0%nat)
    = Returned {| usage := PyFloat (PrimFloat.div 1234 1024) |}.
Proof.
  destruct (aggregate_float_conversion (provider (PyFloat 1234) ∅)
              (vm "vm-1") PyNone 0%nat 1234%float) as [Hcpu Hmem].
  split_and!; [reflexivity | apply Hcpu; reflexivity
              | reflexivity | apply Hmem; reflexivity].
Defined.

(** X4: a raw aggregate value that is an integer is divided as an
    integer: the CPU record holds the integer [q] with
    [100 q <= z < 100 q + 100], the memory record the integer [q] with
    [1024 q <= z < 1024 q + 1024]; what is below one unit is dropped. *)
Theorem aggregate_integer_conversion {S} (ops : VsphereOperations S)
    (inst : instance) (duration : pyval) (s : S) (z : Z) :
  (aggregate_values (trace (run ops (inspect_cpu_util inst duration) s))
   = [PyInt z] →
   ∃ q, final (run ops (inspect_cpu_util inst duration) s)
        = Returned {| util := PyInt q |}
        ∧ 100 * q ≤ z < 100 * q + 100)
  ∧ (aggregate_values (trace (run ops (inspect_memory_usage inst duration) s))
     = [PyInt z] →
     ∃ q, final (run ops (inspect_memory_usage inst duration) s)
          = Returned {| usage := PyInt q |}
          ∧ 1024 * q ≤ z < 1024 * q + 1024).
Proof.
  split; intros Hv.
  - exists (z / 100). split.
    + apply (inspect_cpu_util_raw ops inst duration s _ Hv).
    + pose proof (Z.mul_div_le z 100). pose proof (Z.mul_succ_div_gt z 100). lia.
  - exists (z / 1024). split.
    + apply (inspect_memory_usage_raw ops inst duration s _ Hv).
    + pose proof (Z.mul_div_le z 1024). pose proof (Z.mul_succ_div_gt z 1024). lia.
Qed.

Lemma aggregate_integer_conversion_witness :
  aggregate_values
    (trace (run (provider (PyInt (-150)) ∅) (inspect_cpu_util (vm "vm-1") PyNone) 0%nat))
  = [PyInt (-150)]
  ∧ (∃ q, final (run (provider (PyInt (-150)) ∅)
                   (inspect_cpu_util (vm "vm-1") PyNone) 0%nat)
          = Returned {| util := PyInt q |}
          ∧ 100 * q ≤ -150 < 100 * q + 100)
  ∧ aggregate_values
      (trace (run (provider (PyInt (-150)) ∅)
                (inspect_memory_usage (vm "vm-1") PyNone) 0%nat))
    = [PyInt (-150)]
  ∧ (∃ q, final (run (provider (PyInt (-150)) ∅)
                   (inspect_memory_usage (vm "vm-1") PyNone) 0%nat)
          = Returned {| usage := PyInt q |}
          ∧ 1024 * q ≤ -150 < 1024 * q + 1024).
Proof.
  destruct (aggregate_integer_conversion (provider (PyInt (-150)) ∅)
              (vm "vm-1") PyNone 0%nat (-150)) as [Hcpu Hmem].
  split_and!; [reflexivity | apply Hcpu; reflexivity
              | reflexivity | apply Hmem; reflexivity].
Defined.

(** ** The fan-out inspections, pair by pair *)

(** X5: once all its per-device queries have answered, a fan-out
    inspection cannot fail any more: it ends normally, having yielded as
    many pairs as there are device ids in the union of the maps, which
    is at least the size of the largest map and at most the sum of the
    sizes. *)
Theorem fan_out_completes {S} (ops : VsphereOperations S)
    (inst : instance) (duration : pyval) (s : S) :
  (∀ rx tx,
     let r := run ops (inspect_vnic_rates inst duration) s in
     device_maps (trace r) = [rx; tx] →
     final r = Returned tt
     ∧ length (yields (trace r)) = size (dom rx ∪ dom tx)
     ∧ (Nat.max (size rx) (size tx) ≤ length (yields (trace r))
        ≤ size rx + size tx)%nat)
  ∧ (∀ rb rr wb wr,
       let r := run ops (inspect_disk_rates inst duration) s in
       device_maps (trace r) = [rb; rr; wb; wr] →
       final r = Returned tt
       ∧ length (yields (trace r)) = size (dom rb ∪ dom rr ∪ dom wb ∪ dom wr)
       ∧ (Nat.max (Nat.max (size rb) (size rr)) (Nat.max (size wb) (size wr))
          ≤ length (yields (trace r))
          ≤ size rb + size rr + size wb + size wr)%nat).
Proof.
  split.
  - intros rx tx r Hmaps.
    assert (Hlen : length (yields (trace r)) = size (dom rx ∪ dom tx)).
    { unfold r. rewrite (vnic_yields ops inst duration s rx tx Hmaps).
      by rewrite length_fmap. }
    split_and!; [|done|..].
    + destruct (run_inspect_vnic_rates ops inst duration s)
        as [(_ & _ & _ & _ & _ & _ & Hfin & _)
           |(e & _ & _ & _ & _ & _ & Hshort & _)]; [done|].
      fold r in Hshort. rewrite Hmaps in Hshort. cbn in Hshort. lia.
    + rewrite Hlen, <-!(size_dom (D:=gset string)).
      apply Nat.max_lub; apply subseteq_size; set_solver.
    + rewrite Hlen, <-!(size_dom (D:=gset string)).
      rewrite size_union_alt.
      assert (Htx : (size (dom tx ∖ dom rx) ≤ size (dom tx))%nat).
      { apply subseteq_size, subseteq_difference_l. reflexivity. }
      lia.
  - intros rb rr wb wr r Hmaps.
    assert (Hlen : length (yields (trace r))
                   = size (dom rb ∪ dom rr ∪ dom wb ∪ dom wr)).
    { unfold r. rewrite (disk_yields ops inst duration s rb rr wb wr Hmaps).
      by rewrite length_fmap. }
    split_and!; [|done|..].
    + destruct (run_inspect_disk_rates ops inst duration s)
        as [(_ & _ & _ & _ & _ & _ & _ & _ & _ & _ & Hfin & _)
           |(e & _ & _ & _ & _ & _ & _ & _ & Hshort & _)]; [done|].
      fold r in Hshort. rewrite Hmaps in Hshort. cbn in Hshort. lia.
    + rewrite Hlen, <-!(size_dom (D:=gset string)).
      repeat apply Nat.max_lub; apply subseteq_size; set_solver.
    + rewrite Hlen, <-!(size_dom (D:=gset string)).
      rewrite !size_union_alt.
      assert (Hrr : (size (dom rr ∖ dom rb) ≤ size (dom rr))%nat).
      { apply subseteq_size, subseteq_difference_l. reflexivity. }
      assert (Hwb : (size (dom wb ∖ (dom rb ∪ dom rr)) ≤ size (dom wb))%nat).
      { apply subseteq_size, subseteq_difference_l. reflexivity. }
      assert (Hwr : (size (dom wr ∖ (dom rb ∪ dom rr ∪ dom wb))
                     ≤ size (dom wr))%nat).
      { apply subseteq_size, subseteq_difference_l. reflexivity. }
      lia.
Qed.

Lemma fan_out_completes_witness :
  device_maps (trace (run scenario_ops (inspect_vnic_rates (vm "vm-2") PyNone) 0%nat))
  = [scenario_rx; scenario_tx]
  ∧ length (yields (trace (run scenario_ops
                             (inspect_vnic_rates (vm "vm-2") PyNone) 0%nat)))
    = size (dom scenario_rx ∪ dom scenario_tx)
  ∧ device_maps (trace (run scenario_ops (inspect_disk_rates (vm "vm-2") PyNone) 0%nat))
    = [scenario_rb; scenario_rr; scenario_wb; scenario_wr]
  ∧ final (run scenario_ops (inspect_disk_rates (vm "vm-2") PyNone) 0%nat)
    = Returned tt.
Proof.
  destruct (fan_out_completes scenario_ops (vm "vm-2") PyNone 0%nat)
    as [Hvnic Hdisk].
  split_and!.
  - vm_compute. reflexivity.
  - apply (Hvnic scenario_rx scenario_tx). vm_compute. reflexivity.
  - vm_compute. reflexivity.
  - apply (Hdisk scenario_rb scenario_rr scenario_wb scenario_wr).
    vm_compute. reflexivity.
Defined.

Section FirstNext.
Context {S : Type} (ops : VsphereOperations S).

Lemma first_next_vnic (inst : instance) (duration : pyval) (s : S) :
  match next ops (inspect_vnic_rates inst duration) s with
  | Yielded y _ _ cs =>
      ∃ rx tx, device_maps cs = [rx; tx]
               ∧ name y.1 ∈ dom rx ∪ dom tx
               ∧ y = vnic_pair rx tx (name y.1)
  | StopIteration _ cs => device_maps cs = [∅; ∅]
  | Failed _ _ _ => True
  end.
Proof.
  cbn. answer; [destruct (truthy moid) eqn:Hmoid; cbn|]; try done.
  answer; [answer; [answer; [answer|]|]|]; try done.
  rewrite (next_for_each_yield ops _ (vnic_pair m m0));
    [|intros d; apply vnic_body].
  rewrite (left_id_L ∅ (∪)).
  destruct (elements (dom m ∪ dom m0)) as [|d ds] eqn:Hels; cbn.
  - apply elements_empty_inv, leibniz_equiv, empty_union_L in Hels as [H1 H2].
    apply dom_empty_inv_L in H1, H2. by subst.
  - exists m, m0. split_and!; [done | | done].
    apply elem_of_elements. rewrite Hels. left.
Qed.

Lemma first_next_disk (inst : instance) (duration : pyval) (s : S) :
  match next ops (inspect_disk_rates inst duration) s with
  | Yielded y _ _ cs =>
      ∃ rb rr wb wr, device_maps cs = [rb; rr; wb; wr]
                     ∧ device y.1 ∈ dom rb ∪ dom rr ∪ dom wb ∪ dom wr
                     ∧ y = disk_pair rb rr wb wr (device y.1)
  | StopIteration _ cs => device_maps cs = [∅; ∅; ∅; ∅]
  | Failed _ _ _ => True
  end.
Proof.
  cbn. answer; [destruct (truthy moid) eqn:Hmoid; cbn|]; try done.
  answer; [answer; [answer; [answer; [answer; [answer; [answer; [answer
    |]|]|]|]|]|]|]; try done.
  rewrite (next_for_each_yield ops _ (disk_pair m m0 m1 m2));
    [|intros d; apply disk_body].
  rewrite (left_id_L ∅ (∪)).
  destruct (elements (dom m ∪ dom m0 ∪ dom m1 ∪ dom m2)) as [|d ds] eqn:Hels;
    cbn.
  - apply elements_empty_inv, leibniz_equiv, empty_union_L in Hels as [H123 H4].
    apply empty_union_L in H123 as [H12 H3].
    apply empty_union_L in H12 as [H1 H2].
    apply dom_empty_inv_L in H1, H2, H3, H4. by subst.
  - exists m, m0, m1, m2. split_and!; [done | | done].
    apply elem_of_elements. rewrite Hels. left.
Qed.
End FirstNext.

(** X6: the first [next] of a fan-out generator ends in [StopIteration]
    only after every per-device query was made and answered the empty
    map; when it yields, all the queries have answered and the pair is
    the one of a device id that is a key of one of the maps. *)
Theorem fan_out_first_next {S} (ops : VsphereOperations S)
    (inst : instance) (duration : pyval) (s : S) :
  match next ops (inspect_vnic_rates inst duration) s with
  | Yielded y _ _ cs =>
      ∃ rx tx, device_maps cs = [rx; tx]
               ∧ name y.1 ∈ dom rx ∪ dom tx
               ∧ y = vnic_pair rx tx (name y.1)
  | StopIteration _ cs => device_maps cs = [∅; ∅]
  | Failed _ _ _ => True
  end
  ∧ match next ops (inspect_disk_rates inst duration) s with
    | Yielded y _ _ cs =>
        ∃ rb rr wb wr, device_maps cs = [rb; rr; wb; wr]
                       ∧ device y.1 ∈ dom rb ∪ dom rr ∪ dom wb ∪ dom wr
                       ∧ y = disk_pair rb rr wb wr (device y.1)
    | StopIteration _ cs => device_maps cs = [∅; ∅; ∅; ∅]
    | Failed _ _ _ => True
    end.
Proof. split; [apply first_next_vnic | apply first_next_disk]. Qed.

(** A provider without any device: all queries are made, nothing is
    yielded. *)
Example no_device_next :
  next (provider (PyInt 0) ∅) (inspect_disk_rates (vm "vm-2") PyNone) 0%nat
  = StopIteration 9%nat
      [EvGetVmMoid "vm-2" (Returned (PyStr "vm-2-moid"));
       EvGetPerfCounterId VC_DISK_READ_RATE_CNTR (Returned 5);
       EvQueryVmDeviceStats (PyStr "vm-2-moid") 5 PyNone (Returned ∅);
       EvGetPerfCounterId VC_DISK_READ_REQUESTS_RATE_CNTR (Returned 6);
       EvQueryVmDeviceStats (PyStr "vm-2-moid") 6 PyNone (Returned ∅);
       EvGetPerfCounterId VC_DISK_WRITE_RATE_CNTR (Returned 7);
       EvQueryVmDeviceStats (PyStr "vm-2-moid") 7 PyNone (Returned ∅);
       EvGetPerfCounterId VC_DISK_WRITE_REQUESTS_RATE_CNTR (Returned 8);
       EvQueryVmDeviceStats (PyStr "vm-2-moid") 8 PyNone (Returned ∅)].
Proof. vm_compute. reflexivity. Qed.

(** ** What the results depend on *)

(** X8: which pairs a fan-out inspection yields is settled by the
    per-device maps alone: two inspections, of whatever instances, over
    whatever durations, against whatever collaborators, that were
    answered the same maps yield the same pairs, each as many times, in
    an order that is left open. *)
Theorem fan_out_yields_depend_on_maps_only {S1 S2}
    (ops1 : VsphereOperations S1) (ops2 : VsphereOperations S2)
    (inst1 inst2 : instance) (duration1 duration2 : pyval)
    (s1 : S1) (s2 : S2) :
  (device_maps (trace (run ops1 (inspect_vnic_rates inst1 duration1) s1))
   = device_maps (trace (run ops2 (inspect_vnic_rates inst2 duration2) s2)) →
   yields (trace (run ops1 (inspect_vnic_rates inst1 duration1) s1))
   ≡ₚ yields (trace (run ops2 (inspect_vnic_rates inst2 duration2) s2)))
  ∧ (device_maps (trace (run ops1 (inspect_disk_rates inst1 duration1) s1))
     = device_maps (trace (run ops2 (inspect_disk_rates inst2 duration2) s2)) →
     yields (trace (run ops1 (inspect_disk_rates inst1 duration1) s1))
     ≡ₚ yields (trace (run ops2 (inspect_disk_rates inst2 duration2) s2))).
Proof.
  split; intros Hmaps.
  - destruct (run_inspect_vnic_rates ops1 inst1 duration1 s1)
      as [(m1 & c1 & rx & c1' & tx & _ & _ & Htr1)
         |(e1 & _ & _ & _ & _ & Hys1 & Hlen1 & _)];
      destruct (run_inspect_vnic_rates ops2 inst2 duration2 s2)
        as [(m2 & c2 & rx' & c2' & tx' & _ & _ & Htr2)
           |(e2 & _ & _ & _ & _ & Hys2 & Hlen2 & _)];
      cbn zeta in *.
    + assert (Hmaps1 : device_maps
                         (trace (run ops1 (inspect_vnic_rates inst1 duration1) s1))
                       = [rx; tx]).
      { rewrite Htr1. unfold vnic_trace. cbn. by rewrite device_maps_EvYield. }
      assert (Hmaps2 : device_maps
                         (trace (run ops2 (inspect_vnic_rates inst2 duration2) s2))
                       = [rx'; tx']).
      { rewrite Htr2. unfold vnic_trace. cbn. by rewrite device_maps_EvYield. }
      rewrite (vnic_yields ops1 inst1 duration1 s1 rx tx Hmaps1).
      rewrite (vnic_yields ops2 inst2 duration2 s2 rx' tx' Hmaps2).
      rewrite Hmaps1, Hmaps2 in Hmaps. by injection Hmaps as -> ->.
    + rewrite Htr1 in Hmaps. rewrite <-Hmaps in Hlen2.
      unfold vnic_trace in Hlen2. cbn in Hlen2.
      rewrite device_maps_EvYield in Hlen2. cbn in Hlen2. lia.
    + rewrite Htr2 in Hmaps. rewrite Hmaps in Hlen1.
      unfold vnic_trace in Hlen1. cbn in Hlen1.
      rewrite device_maps_EvYield in Hlen1. cbn in Hlen1. lia.
    + by rewrite Hys1, Hys2.
  - destruct (run_inspect_disk_rates ops1 inst1 duration1 s1)
      as [(m1 & c1 & rb & c2 & rr & c3 & wb & c4 & wr & _ & _ & Htr1)
         |(e1 & _ & _ & _ & _ & _ & _ & Hys1 & Hlen1 & _)];
      destruct (run_inspect_disk_rates ops2 inst2 duration2 s2)
        as [(m2 & d1 & rb' & d2 & rr' & d3 & wb' & d4 & wr' & _ & _ & Htr2)
           |(e2 & _ & _ & _ & _ & _ & _ & Hys2 & Hlen2 & _)];
      cbn zeta in *.
    + assert (Hmaps1 : device_maps
                         (trace (run ops1 (inspect_disk_rates inst1 duration1) s1))
                       = [rb; rr; wb; wr]).
      { rewrite Htr1. unfold disk_trace. cbn. by rewrite device_maps_EvYield. }
      assert (Hmaps2 : device_maps
                         (trace (run ops2 (inspect_disk_rates inst2 duration2) s2))
                       = [rb'; rr'; wb'; wr']).
      { rewrite Htr2. unfold disk_trace. cbn. by rewrite device_maps_EvYield. }
      rewrite (disk_yields ops1 inst1 duration1 s1 rb rr wb wr Hmaps1).
      rewrite (disk_yields ops2 inst2 duration2 s2 rb' rr' wb' wr' Hmaps2).
      rewrite Hmaps1, Hmaps2 in Hmaps. by injection Hmaps as -> -> -> ->.
    + rewrite Htr1 in Hmaps. rewrite <-Hmaps in Hlen2.
      unfold disk_trace in Hlen2. cbn in Hlen2.
      rewrite device_maps_EvYield in Hlen2. cbn in Hlen2. lia.
    + rewrite Htr2 in Hmaps. rewrite Hmaps in Hlen1.
      unfold disk_trace in Hlen1. cbn in Hlen1.
      rewrite device_maps_EvYield in Hlen1. cbn in Hlen1. lia.
    + by rewrite Hys1, Hys2.
Qed.

Lemma fan_out_yields_depend_on_maps_only_witness :
  device_maps (trace (run scenario_ops (inspect_vnic_rates (vm "vm-2") PyNone) 0%nat))
  = device_maps (trace (run other_ops
                          (inspect_vnic_rates (vm "vm-9") (PyNum (PyInt 300))) 7))
  ∧ yields (trace (run scenario_ops (inspect_vnic_rates (vm "vm-2") PyNone) 0%nat))
    ≡ₚ yields (trace (run other_ops
                       (inspect_vnic_rates (vm "vm-9") (PyNum (PyInt 300))) 7))
  ∧ device_maps (trace (run scenario_ops (inspect_disk_rates (vm "vm-2") PyNone) 0%nat))
    = device_maps (trace (run other_ops
                            (inspect_disk_rates (vm "vm-9") (PyNum (PyInt 300))) 7))
  ∧ yields (trace (run scenario_ops (inspect_disk_rates (vm "vm-2") PyNone) 0%nat))
    ≡ₚ yields (trace (run other_ops
                       (inspect_disk_rates (vm "vm-9") (PyNum (PyInt 300))) 7)).
Proof.
  destruct (fan_out_yields_depend_on_maps_only scenario_ops other_ops
              (vm "vm-2") (vm "vm-9") PyNone (PyNum (PyInt 300)) 0%nat 7)
    as [Hvnic Hdisk].
  split_and!.
  - vm_compute. reflexivity.
  - apply Hvnic. vm_compute. reflexivity.
  - vm_compute. reflexivity.
  - apply Hdisk. vm_compute. reflexivity.
Defined.
